(** * powerblog: the request handlers of [main.py], embedded in Rocq

    The blog keeps three tables (users, posts, comments) behind an ORM,
    a login session, and a queue of flashed messages.  Every route of
    [main.py] is a short flow over that state which ends in a template,
    a redirect, an HTTP abort or an unhandled exception.  The handlers
    are written below in a small state-and-exception monad, in the order
    of the source, and the access rules and frame properties of the
    routes are proved about them. *)

From Stdlib Require Import ZArith List String Ascii Bool Lia DecimalString.
Import ListNotations.
Local Open Scope string_scope.
Local Open Scope Z_scope.

(** ** Models (main.py, lines 61-100) *)

(** [class User]: id, name, email (unique), password. *)
Record User := mkUser {
  user_id : Z;
  user_name : string;
  user_email : string;
  user_password : string
}.

(** [class BlogPost].  [author_id] is the foreign key to [user.id]. *)
Record BlogPost := mkBlogPost {
  post_id : Z;
  title : string;
  subtitle : string;
  date : string;
  body : string;
  img_url : string;
  post_author_id : Z
}.

(** [class Comment].  [comment_post_id] is the column [post_id]; it is
    declared [Mapped[int]], hence NOT NULL, but the unit of work writes
    NULL into it when the parent post is deleted (the relationship
    [BlogPost.comments] carries no cascade option), so the pending value
    is an option. *)
Record Comment := mkComment {
  comment_id : Z;
  text : string;
  comment_author_id : Z;
  comment_post_id : option Z
}.

(** The database: one list of rows per table, in insertion order. *)
Record Store := mkStore {
  users : list User;
  blog_posts : list BlogPost;
  comments : list Comment
}.

(** ** Requests, responses and the world a handler runs in *)

Inductive Method := GET | POST.

(** [request.form]: the submitted fields, as sent. *)
Definition FormData := list (string * string).

Record Request := mkRequest {
  method : Method;
  form : FormData
}.

(** The view functions that [url_for] is called with. *)
Inductive Endpoint :=
| ep_get_all_posts
| ep_login
| ep_show_post (i : Z).

(** Exceptions that reach a handler or escape it. *)
Inductive Exn :=
| IntegrityError (constraint : string)
| AttributeError
| BadRequestKeyError (key : string)
| SMTPException (diagnostic : string)
| OverflowError
| UnicodeEncodeError (reason : string).

(** What a view function returns.  A template is named without the
    values handed to it: rendering is left to the template engine. *)
Inductive Response :=
| render_template (template : string)
| redirect (target : Endpoint)
| abort (code : Z)
| unhandled (e : Exn).

(** [datetime.date]. *)
Record Date := mkDate { year : nat; month : nat; day : nat }.

(** A message handed to [connection.sendmail]. *)
Record Mail := mkMail {
  from_addr : option string;
  to_addrs : option string;
  msg : string
}.

(** What a request can read and change: the database, the identifier kept
    in the login session, the flashed messages [(category, message)]
    oldest first, the number of salts drawn from the system's random
    source so far, today's date and the mails handed to the relay. *)
Record World := mkWorld {
  db : Store;
  session_user_id : option Z;
  flashes : list (string * string);
  salts_drawn : nat;
  today : Date;
  outbox : list Mail
}.

Definition set_db (s : Store) (w : World) : World :=
  mkWorld s (session_user_id w) (flashes w) (salts_drawn w) (today w) (outbox w).

Definition set_session (i : option Z) (w : World) : World :=
  mkWorld (db w) i (flashes w) (salts_drawn w) (today w) (outbox w).

(** ** The handler monad: state, with an early exit

    A computation either yields a value or stops the request with a
    response ([abort], an early [return redirect(...)], or an exception
    nobody catches). *)

Inductive Outcome (A : Type) :=
| Val (a : A)
| Stop (r : Response).
Arguments Val {A} a.
Arguments Stop {A} r.

Definition M (A : Type) := World -> Outcome A * World.

Definition ret {A} (a : A) : M A := fun w => (Val a, w).

Definition bind {A B} (m : M A) (k : A -> M B) : M B :=
  fun w => match m w with
           | (Val a, w') => k a w'
           | (Stop r, w') => (Stop r, w')
           end.

Notation "x <- m ;; k" := (bind m (fun x => k))
  (at level 61, m at next level, right associativity).
Notation "m ;;; k" := (bind m (fun _ => k))
  (at level 61, right associativity).

Definition stop {A} (r : Response) : M A := fun w => (Stop r, w).
Definition raise {A} (e : Exn) : M A := stop (unhandled e).
Definition get_world : M World := fun w => (Val w, w).
Definition put_world (w : World) : M unit := fun _ => (Val tt, w).

(** Running a view function: the response it ends with, and the world it
    leaves. *)
Definition run (h : M Response) (w : World) : Response * World :=
  match h w with
  | (Val r, w') => (r, w')
  | (Stop r, w') => (r, w')
  end.

(** [flash(message, category)]; the default category is "message". *)
Definition flash (message : string) (category : string) : M unit :=
  fun w => (Val tt, mkWorld (db w) (session_user_id w)
                      (flashes w ++ [(category, message)])
                      (salts_drawn w) (today w) (outbox w)).

(** ** The persistence layer *)

(** [db.session.get(Model, id)]: the row with that primary key. *)
Definition get_user (i : Z) (s : Store) : option User :=
  find (fun u => user_id u =? i) (users s).

Definition get_post (i : Z) (s : Store) : option BlogPost :=
  find (fun p => post_id p =? i) (blog_posts s).

Definition get_comment (i : Z) (s : Store) : option Comment :=
  find (fun c => comment_id c =? i) (comments s).

(** The integers the database takes as a key: SQLite binds a Python int
    as a signed 64-bit INTEGER and the driver raises OverflowError on any
    other, before a query is made.  The URL converter [<int:...>] has no
    such bound. *)
Definition in_int64 (i : Z) : bool := (- 2 ^ 63 <=? i) && (i <? 2 ^ 63).

(** What a lookup by an identifier that has no row ends with: 404, or the
    driver's exception, which nothing catches. *)
Definition missing (i : Z) : Response :=
  if in_int64 i then abort 404 else unhandled OverflowError.

(** [db.get_or_404(Model, id)].  Every key the database holds fits in 64
    bits, so an identifier that has a row is fetched; one that has none is
    either refused by the driver or not found. *)
Definition get_or_404 {A} (lookup : Z -> Store -> option A) (i : Z) : M A :=
  fun w => match lookup i (db w) with
           | Some a => (Val a, w)
           | None => (Stop (missing i), w)
           end.

(** [db.session.execute(db.select(User).where(User.email == email)).scalar()]:
    the first row whose email is exactly [email]; comparing with None
    ([email IS NULL]) selects nothing, the column being NOT NULL. *)
Definition select_user_by_email (email : option string) (s : Store) : option User :=
  match email with
  | Some e => find (fun u => String.eqb (user_email u) e) (users s)
  | None => None
  end.

(** An integer primary key left to the database: one more than the
    largest in the table. *)
Definition next_id (ids : list Z) : Z := fold_right Z.max 0 ids + 1.

(** A Python None written into a NOT NULL column. *)
Definition not_null (column : string) (v : option string) : Exn + string :=
  match v with
  | Some x => inr x
  | None => inl (IntegrityError ("NOT NULL constraint failed: " ++ column))
  end.

(** The statements a commit flushes.  Each one checks the constraints it
    can break, as the database does, and either yields the new tables or
    the IntegrityError that [db.session.commit()] raises. *)

(** INSERT INTO user: every column is NOT NULL, [email] is unique. *)
Definition insert_user (name email password : option string) (s : Store)
  : Exn + (User * Store) :=
  match not_null "user.name" name, not_null "user.email" email,
        not_null "user.password" password with
  | inr n, inr e, inr p =>
      if existsb (fun u => String.eqb (user_email u) e) (users s)
      then inl (IntegrityError "UNIQUE constraint failed: user.email")
      else let u := mkUser (next_id (map user_id (users s))) n e p in
           inr (u, mkStore (users s ++ [u]) (blog_posts s) (comments s))
  | inl x, _, _ => inl x
  | _, inl x, _ => inl x
  | _, _, inl x => inl x
  end.

(** INSERT INTO blog_posts: [title] is unique. *)
Definition insert_post (title' subtitle' body' img_url' : option string)
    (author : Z) (date' : string) (s : Store) : Exn + (BlogPost * Store) :=
  match not_null "blog_posts.title" title', not_null "blog_posts.subtitle" subtitle',
        not_null "blog_posts.body" body', not_null "blog_posts.img_url" img_url' with
  | inr t, inr st, inr b, inr i =>
      if existsb (fun q => String.eqb (title q) t) (blog_posts s)
      then inl (IntegrityError "UNIQUE constraint failed: blog_posts.title")
      else let p := mkBlogPost (next_id (map post_id (blog_posts s)))
                      t st date' b i author in
           inr (p, mkStore (users s) (blog_posts s ++ [p]) (comments s))
  | inl x, _, _, _ => inl x
  | _, inl x, _, _ => inl x
  | _, _, inl x, _ => inl x
  | _, _, _, inl x => inl x
  end.

(** UPDATE blog_posts SET title, subtitle, img_url, body WHERE id = [post_id p]:
    the new title must not be the title of another row. *)
Definition update_post (p : BlogPost) (title' subtitle' img_url' body' : option string)
    (s : Store) : Exn + (BlogPost * Store) :=
  match not_null "blog_posts.title" title', not_null "blog_posts.subtitle" subtitle',
        not_null "blog_posts.img_url" img_url', not_null "blog_posts.body" body' with
  | inr t, inr st, inr i, inr b =>
      if existsb (fun q => negb (post_id q =? post_id p) && String.eqb (title q) t)
                 (blog_posts s)
      then inl (IntegrityError "UNIQUE constraint failed: blog_posts.title")
      else let p' := mkBlogPost (post_id p) t st (date p) b i (post_author_id p) in
           inr (p', mkStore (users s)
                      (map (fun q => if post_id q =? post_id p then p' else q)
                           (blog_posts s))
                      (comments s))
  | inl x, _, _, _ => inl x
  | _, inl x, _, _ => inl x
  | _, _, inl x, _ => inl x
  | _, _, _, inl x => inl x
  end.

(** INSERT INTO comments. *)
Definition insert_comment (text' : option string) (author : Z) (parent : Z)
    (s : Store) : Exn + (Comment * Store) :=
  match not_null "comments.text" text' with
  | inr t =>
      let c := mkComment (next_id (map comment_id (comments s))) t author (Some parent) in
      inr (c, mkStore (users s) (blog_posts s) (comments s ++ [c]))
  | inl x => inl x
  end.

(** DELETE FROM comments WHERE id = [comment_id c]. *)
Definition delete_comment_row (c : Comment) (s : Store) : Exn + (unit * Store) :=
  inr (tt, mkStore (users s) (blog_posts s)
             (filter (fun d => negb (comment_id d =? comment_id c)) (comments s))).

(** [db.session.delete(post)].  The collection [post.comments] is the
    set of rows whose [post_id] is the post's id. *)
Definition is_child (p : BlogPost) (c : Comment) : bool :=
  match comment_post_id c with
  | Some i => i =? post_id p
  | None => false
  end.

Definition orphan (c : Comment) : Comment :=
  mkComment (comment_id c) (text c) (comment_author_id c) None.

(** What the unit of work stages: [relationship(back_populates="parent_post")]
    has the default cascade (save-update, merge), so the children are
    detached, their [post_id] set to NULL, and only the post row is
    deleted. *)
Definition stage_delete_post (p : BlogPost) (s : Store) : Store :=
  mkStore (users s)
          (filter (fun q => negb (post_id q =? post_id p)) (blog_posts s))
          (map (fun c => if is_child p c then orphan c else c) (comments s)).

(** The flush: [UPDATE comments SET post_id = NULL] on any row breaks the
    NOT NULL constraint of [comments.post_id]. *)
Definition delete_post_row (p : BlogPost) (s : Store) : Exn + (unit * Store) :=
  if existsb (is_child p) (comments s)
  then inl (IntegrityError "NOT NULL constraint failed: comments.post_id")
  else inr (tt, stage_delete_post p s).

(** [db.session.commit()] after the changes [flush] stands for: the new
    tables are installed, or the exception escapes and the tables stay as
    they were. *)
Definition commit {A} (flush : Store -> Exn + (A * Store)) : M A :=
  fun w => match flush (db w) with
           | inr (a, s) => (Val a, set_db s w)
           | inl e => (Stop (unhandled e), w)
           end.

(** ** The authentication manager (flask_login) *)

(** [load_user]: [db.session.get(User, int(user_id))]. *)
Definition load_user (i : Z) (s : Store) : option User := get_user i s.

(** [current_user]: the user the session names, or None for the
    anonymous user (no session, or an identifier with no row). *)
Definition current_user (w : World) : option User :=
  match session_user_id w with
  | Some i => load_user i (db w)
  | None => None
  end.

Definition is_authenticated (cu : option User) : bool :=
  match cu with Some _ => true | None => false end.

(** [login_user(user)] and [logout_user()]. *)
Definition login_user (u : User) : M unit :=
  fun w => (Val tt, set_session (Some (user_id u)) w).

Definition logout_user : M unit :=
  fun w => (Val tt, set_session None w).

(** ** Access control decorators (main.py, lines 120-142) *)

(** [admin_only]: "Allow only admin user (user with ID = 1)".  The test
    is [not current_user.is_authenticated or current_user.id != 1]; the
    [or] does not read [id] of the anonymous user. *)
Definition admin_only {A} (f : A -> M Response) (args : A) : M Response :=
  fun w =>
    let cu := current_user w in
    if negb (is_authenticated cu)
       || match cu with Some u => negb (user_id u =? 1) | None => true end
    then stop (abort 403) w
    else f args w.

(** [only_commenter]: "Allow only the author of a comment to delete it".
    The comment is fetched first. *)
Definition only_commenter {A} (function : Z -> A -> M Response)
    (comment_id' : Z) (args : A) : M Response :=
  comment <- get_or_404 get_comment comment_id' ;;
  fun w =>
    let cu := current_user w in
    if negb (is_authenticated cu)
       || match cu with
          | Some u => negb (user_id u =? comment_author_id comment)
          | None => true
          end
    then stop (abort 403) w
    else function comment_id' args w.

(** ** Forms (forms.py)

    [request.form.get(key)], [request.form[key]] and [field.data] read the
    first value submitted under a name. *)
Definition form_get (key : string) (f : FormData) : option string :=
  option_map snd (find (fun kv => String.eqb (fst kv) key) f).

Definition data_required (key : string) (f : FormData) : bool :=
  match form_get key f with
  | Some v => negb (String.eqb v "")
  | None => false
  end.

(** Modelled from the spec: forms.py is not among the sources.  These are
    the field rules the specification lists for the login, post and comment
    forms: every field named here is required (present and non-empty). *)
Definition LoginForm_validate (f : FormData) : bool :=
  data_required "email" f && data_required "password" f.

Definition CreatePostForm_validate (f : FormData) : bool :=
  data_required "title" f && data_required "subtitle" f
  && data_required "img_url" f && data_required "body" f.

Definition CommentForm_validate (f : FormData) : bool :=
  data_required "comment" f.

(** [form.validate_on_submit()]: the request is a submission and the
    field rules hold. *)
Definition validate_on_submit (validate : FormData -> bool) (req : Request) : bool :=
  match method req with
  | POST => validate (form req)
  | GET => false
  end.

(** ** Dates: [date.today().strftime("%B %d, %Y")] *)

Definition month_name (m : nat) : string :=
  nth (pred m)
      ["January"; "February"; "March"; "April"; "May"; "June"; "July";
       "August"; "September"; "October"; "November"; "December"] "".

Definition decimal (n : nat) : string := NilZero.string_of_uint (Nat.to_uint n).

Definition two_digits (n : nat) : string :=
  if (n <? 10)%nat then "0" ++ decimal n else decimal n.

Definition strftime_B_d_Y (d : Date) : string :=
  month_name (month d) ++ " " ++ two_digits (day d) ++ ", " ++ decimal (year d).

(** [str(e)] of the exceptions a handler formats. *)
Definition str (e : Exn) : string :=
  match e with
  | IntegrityError c => "(sqlite3.IntegrityError) " ++ c
  | AttributeError => "'NoneType' object has no attribute 'encode'"
  | BadRequestKeyError _ =>
      "400 Bad Request: The browser (or proxy) sent a request that this server could not understand."
  | SMTPException t => t
  | OverflowError => "Python int too large to convert to SQLite INTEGER"
  | UnicodeEncodeError t => t
  end.

(** ** The mail relay

    What the relay answers to each step of one SMTP conversation: nothing
    when the step goes through, the diagnostic of the exception it raises
    otherwise. *)
Record Relay := mkRelay {
  on_connect : option string;
  on_starttls : option string;
  on_login : option string;
  on_sendmail : option string;
  on_quit : option string
}.

(** The body of a [try]: a value or the exception raised, and the world
    as the statements before the exception left it. *)
Definition Try (A : Type) := World -> (Exn + A) * World.

Definition try_ret {A} (a : A) : Try A := fun w => (inr a, w).

Definition try_bind {A B} (m : Try A) (k : A -> Try B) : Try B :=
  fun w => match m w with
           | (inr a, w') => k a w'
           | (inl e, w') => (inl e, w')
           end.

Notation "x <~ m ;; k" := (try_bind m (fun x => k))
  (at level 61, m at next level, right associativity).

(** One step of the conversation. *)
Definition smtp (answer : option string) : Try unit :=
  fun w => match answer with
           | None => (inr tt, w)
           | Some t => (inl (SMTPException t), w)
           end.

(** [data[key]] on [request.form]: a missing key raises. *)
Definition form_item (key : string) (f : FormData) : Try string :=
  fun w => match form_get key f with
           | Some v => (inr v, w)
           | None => (inl (BadRequestKeyError key), w)
           end.

Definition try_flash (message category : string) : Try unit :=
  fun w => (inr tt, snd (flash message category w)).

(** Whether every byte of a string is below 128. *)
Fixpoint is_ascii (s : string) : bool :=
  match s with
  | EmptyString => true
  | String c r => (nat_of_ascii c <? 128)%nat && is_ascii r
  end.

Definition hand_over (m : Mail) : Try unit :=
  fun w => (inr tt, mkWorld (db w) (session_user_id w) (flashes w)
                      (salts_drawn w) (today w) (outbox w ++ [m])).

Section Blog.

(** Modelled from the spec: forms.py is not among the sources.  The
    registration form requires a well-formed email and a password of a
    minimum length; the spec fixes neither the format nor the length. *)
Variable email_well_formed : string -> bool.
Variable password_min_length : nat.

Definition RegisterForm_validate (f : FormData) : bool :=
  data_required "name" f
  && data_required "email" f
  && match form_get "email" f with Some e => email_well_formed e | None => false end
  && data_required "password" f
  && match form_get "password" f with
     | Some p => (password_min_length <=? String.length p)%nat
     | None => false
     end.

(** werkzeug.security.  [gen_salt n k] is the salt of length [k] that the
    [n]-th draw from the random source gives; [hash_internal method salt
    password] is the digest and the method actually used (with its
    iteration count); [check_password_hash pwhash password] verifies. *)
Variable gen_salt : nat -> nat -> string.
Variable hash_internal : string -> string -> string -> string * string.
Variable check_password_hash : string -> string -> bool.

(** [generate_password_hash(password, method, salt_length)] draws a salt
    and returns "method$salt$hash". *)
Definition generate_password_hash (password : option string) (method' : string)
    (salt_length : nat) : M string :=
  fun w =>
    let salt := gen_salt (salts_drawn w) salt_length in
    let w' := mkWorld (db w) (session_user_id w) (flashes w)
                (S (salts_drawn w)) (today w) (outbox w) in
    match password with
    | Some p =>
        let '(h, actual_method) := hash_internal method' salt p in
        (Val (actual_method ++ "$" ++ salt ++ "$" ++ h), w')
    | None => (Stop (unhandled AttributeError), w')
    end.

Definition check_password (pwhash : string) (password : option string) : M bool :=
  match password with
  | Some p => ret (check_password_hash pwhash p)
  | None => raise AttributeError
  end.

(** The environment: the bot's address (PYTHON_EMAIL) and the recipient
    (the global [user_email], read from USER_EMAIL). *)
Variable BOT_EMAIL : option string.
Variable USER_EMAIL : option string.

(** smtplib.  [sendmail] encodes a [str] message with the ascii codec
    before it says anything to the relay; [ascii_codec_error m] is the
    text of the UnicodeEncodeError that the codec raises on a message [m]
    that is not ASCII (it names the character and its position). *)
Variable ascii_codec_error : string -> string.

Definition sendmail (relay : Relay) (m : Mail) : Try unit :=
  if is_ascii (msg m)
  then _ <~ smtp (on_sendmail relay) ;; hand_over m
  else fun w => (inl (UnicodeEncodeError (ascii_codec_error (msg m))), w).

(** ** Routes (main.py, lines 149-318) *)

(** [get_all_posts], [about], [logout]. *)
Definition get_all_posts : M Response := ret (render_template "index.html").

Definition about : M Response := ret (render_template "about.html").

Definition logout : M Response :=
  logout_user ;;; ret (redirect ep_get_all_posts).

(** [show_post]: the post page and its comment form. *)
Definition show_post (post_id' : Z) (req : Request) : M Response :=
  requested_post <- get_or_404 get_post post_id' ;;
  (if validate_on_submit CommentForm_validate req
   then w <- get_world ;;
        match current_user w with
        | None =>
            flash "You need to login or register to comment." "message" ;;;
            stop (redirect ep_login)
        | Some u =>
            commit (insert_comment (form_get "comment" (form req))
                      (user_id u) (post_id requested_post)) ;;;
            ret tt
        end
   else ret tt) ;;;
  ret (render_template "post.html").

(** [register]. *)
Definition register (req : Request) : M Response :=
  if validate_on_submit RegisterForm_validate req
  then w <- get_world ;;
       match select_user_by_email (form_get "email" (form req)) (db w) with
       | Some _ =>
           flash "User already exists, please log in." "message" ;;;
           ret (redirect ep_login)
       | None =>
           hash_and_salted_password <-
             generate_password_hash (form_get "password" (form req))
               "pbkdf2:sha256" 8 ;;
           new_user <- commit (insert_user (form_get "name" (form req))
                                 (form_get "email" (form req))
                                 (Some hash_and_salted_password)) ;;
           login_user new_user ;;;
           ret (redirect ep_get_all_posts)
       end
  else ret (render_template "register.html").

(** [login]. *)
Definition login (req : Request) : M Response :=
  if validate_on_submit LoginForm_validate req
  then let email := form_get "email" (form req) in
       let password := form_get "password" (form req) in
       w <- get_world ;;
       match select_user_by_email email (db w) with
       | None =>
           flash "That email does not exist. Please try again." "message" ;;;
           ret (redirect ep_login)
       | Some user =>
           ok <- check_password (user_password user) password ;;
           if negb ok
           then flash "Invalid password. Please try again." "message" ;;;
                ret (redirect ep_login)
           else login_user user ;;;
                ret (redirect ep_get_all_posts)
       end
  else ret (render_template "login.html").

(** [add_new_post], before [@admin_only] is applied. *)
Definition add_new_post_wrapped (req : Request) : M Response :=
  if validate_on_submit CreatePostForm_validate req
  then w <- get_world ;;
       match current_user w with
       | Some u =>
           commit (insert_post (form_get "title" (form req))
                     (form_get "subtitle" (form req))
                     (form_get "body" (form req))
                     (form_get "img_url" (form req))
                     (user_id u) (strftime_B_d_Y (today w))) ;;;
           ret (redirect ep_get_all_posts)
       | None => raise (IntegrityError "NOT NULL constraint failed: blog_posts.author_id")
       end
  else ret (render_template "make-post.html").

Definition add_new_post : Request -> M Response := admin_only add_new_post_wrapped.

(** [edit_post], before [@admin_only] is applied.  The form is built with
    the post's fields as defaults; on a submission the submitted values
    are the ones validated and read. *)
Definition edit_post_wrapped (args : Z * Request) : M Response :=
  let '(post_id', req) := args in
  post <- get_or_404 get_post post_id' ;;
  if validate_on_submit CreatePostForm_validate req
  then commit (update_post post (form_get "title" (form req))
                 (form_get "subtitle" (form req))
                 (form_get "img_url" (form req))
                 (form_get "body" (form req))) ;;;
       ret (redirect (ep_show_post (post_id post)))
  else ret (render_template "make-post.html").

Definition edit_post (post_id' : Z) (req : Request) : M Response :=
  admin_only edit_post_wrapped (post_id', req).

(** [delete_post], before [@admin_only] is applied. *)
Definition delete_post_wrapped (post_id' : Z) : M Response :=
  post_to_delete <- get_or_404 get_post post_id' ;;
  commit (delete_post_row post_to_delete) ;;;
  ret (redirect ep_get_all_posts).

Definition delete_post : Z -> M Response := admin_only delete_post_wrapped.

(** [delete_comment], before [@only_commenter] is applied. *)
Definition delete_comment_wrapped (comment_id' : Z) (post_id' : Z) : M Response :=
  comment_to_delete <- get_or_404 get_comment comment_id' ;;
  commit (delete_comment_row comment_to_delete) ;;;
  ret (redirect (ep_show_post post_id')).

Definition delete_comment : Z -> Z -> M Response :=
  only_commenter delete_comment_wrapped.

(** [contact]: the [try] block.  The relay is dialled; inside the [with]
    the message is built from the form and sent; leaving the [with] says
    QUIT, whose failure replaces an exception of the block. *)
Definition contact_message (data : FormData) : Try string :=
  name <~ form_item "name" data ;;
  message <~ form_item "message" data ;;
  email <~ form_item "email" data ;;
  phone <~ form_item "phone" data ;;
  try_ret ("Subject: Blog Contact Form - " ++ name ++ " " ++ String "010" (String "010"
           ("Message: " ++ message ++ " " ++ String "010" (String "010"
           ("Email: " ++ email ++ " Phone Number: " ++ phone))))).

Definition contact_send (relay : Relay) (data : FormData) : Try unit :=
  _ <~ smtp (on_connect relay) ;;
  fun w =>
    let '(r, w1) :=
      (_ <~ smtp (on_starttls relay) ;;
       _ <~ smtp (on_login relay) ;;
       m <~ contact_message data ;;
       _ <~ sendmail relay (mkMail BOT_EMAIL USER_EMAIL m) ;;
       try_flash "Your message was sent successfully!" "success") w in
    match on_quit relay with
    | Some t => (inl (SMTPException t), w1)
    | None => (r, w1)
    end.

Definition contact (relay : Relay) (req : Request) : M Response :=
  match method req with
  | POST =>
      fun w => match contact_send relay (form req) w with
               | (inr _, w') => (Val tt, w')
               | (inl e, w') =>
                   flash ("❌ Failed to send message: " ++ str e) "error" w'
               end
  | GET => ret tt
  end ;;;
  ret (render_template "contact.html").

(** The world with one more flashed message. *)
Definition with_flash (message category : string) (w : World) : World :=
  snd (flash message category w).

(** The world after a view function has served [n] equal requests. *)
Fixpoint served (h : M Response) (n : nat) (w : World) : World :=
  match n with
  | O => w
  | S k => snd (run h (served h k w))
  end.

(** Whether a character occurs in a string. *)
Fixpoint occurs (c : ascii) (s : string) : bool :=
  match s with
  | EmptyString => false
  | String d r => Ascii.eqb d c || occurs c r
  end.

(** Some user carries this email and a hash that verifies this password. *)
Definition credentials_match (check : string -> string -> bool)
    (email password : string) (s : Store) : Prop :=
  exists u, In u (users s) /\ user_email u = email
            /\ check (user_password u) password = true.

(** ** The steps of a delivery, in order

    The message the form gives when it has the four fields. *)
Definition message_text (data : FormData) : option string :=
  match form_get "name" data, form_get "message" data,
        form_get "email" data, form_get "phone" data with
  | Some name, Some message, Some email, Some phone =>
      Some ("Subject: Blog Contact Form - " ++ name ++ " " ++ String "010" (String "010"
            ("Message: " ++ message ++ " " ++ String "010" (String "010"
            ("Email: " ++ email ++ " Phone Number: " ++ phone)))))
  | _, _, _, _ => None
  end.

(** How the statements inside the [with] end: with the text of the
    exception of the first step that fails (STARTTLS, the login, a field
    the form lacks, the ascii codec, the relay's answer to the mail), or
    with the message sent. *)
Definition block_outcome (relay : Relay) (data : FormData) : string + string :=
  match on_starttls relay with
  | Some t => inl t
  | None =>
  match on_login relay with
  | Some t => inl t
  | None =>
  match message_text data with
  | None =>
      inl "400 Bad Request: The browser (or proxy) sent a request that this server could not understand."
  | Some m =>
      if is_ascii m
      then match on_sendmail relay with
           | Some t => inl t
           | None => inr m
           end
      else inl (ascii_codec_error m)
  end end end.

(** What one POST to the contact page adds to the flashed messages and
    to the mails handed over. *)
Definition contact_flashes (relay : Relay) (data : FormData) : list (string * string) :=
  let failed t := ("error", "❌ Failed to send message: " ++ t) in
  let sent := ("success", "Your message was sent successfully!") in
  match on_connect relay with
  | Some t => [failed t]
  | None =>
      match block_outcome relay data, on_quit relay with
      | inl t, None => [failed t]
      | inl _, Some q => [failed q]
      | inr _, None => [sent]
      | inr _, Some q => [sent; failed q]
      end
  end.

Definition contact_mails (relay : Relay) (data : FormData) : list Mail :=
  match on_connect relay, block_outcome relay data with
  | None, inr m => [mkMail BOT_EMAIL USER_EMAIL m]
  | _, _ => []
  end.

(** ** A small blog to run the handlers on

    Ada is the first user (the admin), Bob the second; there are two
    posts by Ada and one comment by Bob under the first. *)
Definition ada : User :=
  mkUser 1 "Ada" "ada@example.com" "hash-of-lovelace1".
Definition bob : User :=
  mkUser 2 "Bob" "bob@example.com" "hash-of-secret123".

Definition post1 : BlogPost :=
  mkBlogPost 1 "Hello" "A first post" "March 09, 2025" "<p>Hi</p>"
    "https://example.com/1.png" 1.
Definition post2 : BlogPost :=
  mkBlogPost 2 "World" "A second post" "March 10, 2025" "<p>Again</p>"
    "https://example.com/2.png" 1.

Definition comment5 : Comment := mkComment 5 "Nice one" 2 (Some 1).

Definition blog : Store := mkStore [ada; bob] [post1; post2] [comment5].

(** The blog as seen by a caller with this session. *)
Definition world_as (session : option Z) : World :=
  mkWorld blog session [] 0 (mkDate 2025 3 11) [].

(** The same blog before anyone commented. *)
Definition quiet_world_as (session : option Z) : World :=
  mkWorld (mkStore [ada; bob] [post1; post2] []) session [] 0 (mkDate 2025 3 11) [].

Definition comment_request : Request :=
  mkRequest POST [("comment", "Me too")].

Definition login_request : Request :=
  mkRequest POST [("email", "bob@example.com"); ("password", "secret123")].

Definition register_again_request : Request :=
  mkRequest POST [("name", "Bob"); ("email", "bob@example.com");
                  ("password", "secret123")].

Definition register_request : Request :=
  mkRequest POST [("name", "Cy"); ("email", "cy@example.com");
                  ("password", "hunter2hunter2")].

Definition edit_request : Request :=
  mkRequest POST [("title", "Hello again"); ("subtitle", "Edited");
                  ("img_url", "https://example.com/3.png"); ("body", "<p>New</p>")].

(** An edit that takes the title of the second post. *)
Definition clashing_edit_request : Request :=
  mkRequest POST [("title", "World"); ("subtitle", "Edited");
                  ("img_url", "https://example.com/3.png"); ("body", "<p>New</p>")].

(** Stand-ins for the form rules and the hash primitives. *)
Definition plain_well_formed (e : string) : bool := occurs "@" e.

Definition plain_gen_salt (n k : nat) : string :=
  string_of_list_ascii (repeat "s"%char k) ++ decimal n.

Definition plain_hash_internal (method' salt password : string) : string * string :=
  ("digest-of-" ++ salt ++ "-" ++ password, method' ++ ":1000").

Definition plain_check_password_hash (pwhash password : string) : bool :=
  String.eqb pwhash ("hash-of-" ++ password).

Definition plain_codec_error (m : string) : string :=
  "'ascii' codec can't encode characters: ordinal not in range(128)".

(** ** Who is asking *)

(** The caller is logged in and is the user with identifier [i]. *)
Definition authenticated_as (i : Z) (w : World) : Prop :=
  exists u, current_user w = Some u /\ user_id u = i.

Definition is_admin (w : World) : bool :=
  match current_user w with
  | Some u => user_id u =? 1
  | None => false
  end.

Definition is_author (c : Comment) (w : World) : bool :=
  match current_user w with
  | Some u => user_id u =? comment_author_id c
  | None => false
  end.

(** ** The URL map (the [@app.route] lines)

    One constructor per rule, with the integers its converters read. *)
Inductive Route :=
| route_get_all_posts
| route_show_post (post_id' : Z)
| route_register
| route_login
| route_logout
| route_add_new_post
| route_edit_post (post_id' : Z)
| route_delete_post (post_id' : Z)
| route_delete_comment (comment_id' post_id' : Z)
| route_about
| route_contact.

(** The [methods] of a rule; a rule that names none takes GET only. *)
Definition allows (r : Route) (m : Method) : bool :=
  match r, m with
  | _, GET => true
  | route_show_post _, POST => true
  | route_register, POST => true
  | route_login, POST => true
  | route_add_new_post, POST => true
  | route_edit_post _, POST => true
  | route_contact, POST => true
  | _, POST => false
  end.

(** Dispatch: a method the rule does not take is 405 before any view
    function or decorator runs. *)
Definition serve (relay : Relay) (r : Route) (req : Request) : M Response :=
  if allows r (method req)
  then match r with
       | route_get_all_posts => get_all_posts
       | route_show_post i => show_post i req
       | route_register => register req
       | route_login => login req
       | route_logout => logout
       | route_add_new_post => add_new_post req
       | route_edit_post i => edit_post i req
       | route_delete_post i => delete_post i
       | route_delete_comment c i => delete_comment c i
       | route_about => about
       | route_contact => contact relay req
       end
  else stop (abort 405).

(** ** The constraints of the schema

    Primary keys and the two unique columns hold no value twice. *)
Record keys_unique (s : Store) : Prop := mk_keys_unique {
  unique_user_ids : NoDup (map user_id (users s));
  unique_emails : NoDup (map user_email (users s));
  unique_post_ids : NoDup (map post_id (blog_posts s));
  unique_titles : NoDup (map title (blog_posts s));
  unique_comment_ids : NoDup (map comment_id (comments s))
}.

(** Every foreign key names a row: posts and comments have their author,
    comments have their parent post. *)
Record references_resolve (s : Store) : Prop := mk_references_resolve {
  post_author_exists :
    forall p, In p (blog_posts s) -> get_user (post_author_id p) s <> None;
  comment_author_exists :
    forall c, In c (comments s) -> get_user (comment_author_id c) s <> None;
  comment_parent_exists :
    forall c, In c (comments s) ->
      exists i, comment_post_id c = Some i /\ get_post i s <> None
}.

(** ** What one request can do to the tables

    [Change cu s s']: the tables [s] become [s'] at the request of the
    caller [cu].  Nothing, one more user, or, for a caller who is logged
    in, one of the six writes on posts and comments. *)
Inductive Change (cu : option User) (s : Store) : Store -> Prop :=
| change_nothing :
    Change cu s s
| change_user_added (n e p : string) :
    (forall v, In v (users s) -> user_email v <> e) ->
    Change cu s
      (mkStore (users s ++ [mkUser (next_id (map user_id (users s))) n e p])
         (blog_posts s) (comments s))
| change_post_added (a : User) (t st d b im : string) :
    cu = Some a -> user_id a = 1 -> In a (users s) ->
    (forall q, In q (blog_posts s) -> title q <> t) ->
    Change cu s
      (mkStore (users s)
         (blog_posts s
          ++ [mkBlogPost (next_id (map post_id (blog_posts s))) t st d b im (user_id a)])
         (comments s))
| change_post_edited (a : User) (p : BlogPost) (t st im b : string) :
    cu = Some a -> user_id a = 1 ->
    get_post (post_id p) s = Some p ->
    (forall q, In q (blog_posts s) -> post_id q <> post_id p -> title q <> t) ->
    Change cu s
      (mkStore (users s)
         (map (fun q => if post_id q =? post_id p
                        then mkBlogPost (post_id p) t st (date p) b im (post_author_id p)
                        else q)
              (blog_posts s))
         (comments s))
| change_post_deleted (a : User) (p : BlogPost) :
    cu = Some a -> user_id a = 1 ->
    get_post (post_id p) s = Some p ->
    existsb (is_child p) (comments s) = false ->
    Change cu s
      (mkStore (users s)
         (filter (fun q => negb (post_id q =? post_id p)) (blog_posts s))
         (comments s))
| change_comment_added (u : User) (p : BlogPost) (t : string) :
    cu = Some u -> In u (users s) ->
    get_post (post_id p) s = Some p ->
    Change cu s
      (mkStore (users s) (blog_posts s)
         (comments s
          ++ [mkComment (next_id (map comment_id (comments s))) t (user_id u)
                (Some (post_id p))]))
| change_comment_deleted (u : User) (c : Comment) :
    cu = Some u ->
    get_comment (comment_id c) s = Some c ->
    comment_author_id c = user_id u ->
    Change cu s
      (mkStore (users s) (blog_posts s)
         (filter (fun d => negb (comment_id d =? comment_id c)) (comments s))).

(** Whether a string ends with another. *)
Fixpoint has_suffix (s suffix : string) : bool :=
  String.eqb s suffix
  || match s with
     | EmptyString => false
     | String _ r => has_suffix r suffix
     end.

(** A second pair of stand-ins for the hash primitives, one that verifies
    what the other produces: the digest is the password after a dash. *)
Definition dash_hash_internal (method' salt password : string) : string * string :=
  ("-" ++ password, method' ++ ":1").

Definition dash_check_password_hash (pwhash password : string) : bool :=
  has_suffix pwhash ("$-" ++ password).

(** The small blog with no user yet. *)
Definition empty_world : World :=
  mkWorld (mkStore [] [] []) None [] 0 (mkDate 2025 3 11) [].

(** A relay that takes everything, and a message for it. *)
Definition willing_relay : Relay := mkRelay None None None None None.

Definition contact_request : Request :=
  mkRequest POST [("name", "Di"); ("email", "di@example.com");
                  ("phone", "555"); ("message", "Hi")].

(** The world a successful registration leaves. *)
Definition registered (w : World) (name email password : string) : World :=
  let salt := gen_salt (salts_drawn w) 8 in
  let h := hash_internal "pbkdf2:sha256" salt password in
  let new_user := mkUser (next_id (map user_id (users (db w)))) name email
                    (snd h ++ "$" ++ salt ++ "$" ++ fst h) in
  mkWorld (mkStore (users (db w) ++ [new_user]) (blog_posts (db w)) (comments (db w)))
    (Some (user_id new_user)) (flashes w) (S (salts_drawn w)) (today w) (outbox w).

(** A session that names someone names a row of the users table. *)
Definition session_resolves (w : World) : Prop :=
  forall i, session_user_id w = Some i -> get_user i (db w) <> None.

(** A computation that leaves the login session as it found it. *)
Definition keeps_session {A} (m : M A) : Prop :=
  forall w, session_user_id (snd (m w)) = session_user_id w.

(** ** Properties of the guards *)

Lemma is_admin_iff (w : World) : is_admin w = true <-> authenticated_as 1 w.
Proof.
  unfold is_admin, authenticated_as. split.
  - destruct (current_user w) as [u|]; [|discriminate].
    intros H. exists u. split; [reflexivity | now apply Z.eqb_eq].
  - intros (u & -> & Hu). now apply Z.eqb_eq.
Qed.

Lemma is_author_iff (c : Comment) (w : World) :
  is_author c w = true <-> authenticated_as (comment_author_id c) w.
Proof.
  unfold is_author, authenticated_as. split.
  - destruct (current_user w) as [u|]; [|discriminate].
    intros H. exists u. split; [reflexivity | now apply Z.eqb_eq].
  - intros (u & -> & Hu). now apply Z.eqb_eq.
Qed.

(** The decorator is a gate: the wrapped function on the admin's request,
    403 and nothing else on any other. *)
Lemma admin_only_gate {A} (f : A -> M Response) (args : A) (w : World) :
  admin_only f args w = if is_admin w then f args w else (Stop (abort 403), w).
Proof.
  unfold admin_only, is_admin.
  destruct (current_user w) as [u|]; simpl; [|reflexivity].
  destruct (user_id u =? 1); reflexivity.
Qed.

Lemma only_commenter_gate {A} (f : Z -> A -> M Response) (c : Z) (args : A) (w : World) :
  only_commenter f c args w =
  match get_comment c (db w) with
  | None => (Stop (missing c), w)
  | Some cm => if is_author cm w then f c args w else (Stop (abort 403), w)
  end.
Proof.
  unfold only_commenter, bind, get_or_404, is_author.
  destruct (get_comment c (db w)) as [cm|]; [|reflexivity].
  destruct (current_user w) as [u|]; simpl; [|reflexivity].
  destruct (user_id u =? comment_author_id cm); reflexivity.
Qed.

Lemma run_stop (h : M Response) (w w' : World) (r : Response) :
  h w = (Stop r, w') -> run h w = (r, w').
Proof. unfold run. now intros ->. Qed.

Lemma run_val (h : M Response) (w w' : World) (r : Response) :
  h w = (Val r, w') -> run h w = (r, w').
Proof. unfold run. now intros ->. Qed.

(** Lookups by primary key. *)
Lemma get_comment_id (c : Z) (s : Store) (cm : Comment) :
  get_comment c s = Some cm -> comment_id cm = c /\ In cm (comments s).
Proof.
  unfold get_comment. intros H. apply find_some in H as [Hin Heq].
  split; [now apply Z.eqb_eq | assumption].
Qed.

Lemma get_post_id (i : Z) (s : Store) (p : BlogPost) :
  get_post i s = Some p -> post_id p = i /\ In p (blog_posts s).
Proof.
  unfold get_post. intros H. apply find_some in H as [Hin Heq].
  split; [now apply Z.eqb_eq | assumption].
Qed.

Lemma find_filter_out {A} (key : A -> Z) (i : Z) (l : list A) :
  find (fun x => key x =? i) (filter (fun x => negb (key x =? i)) l) = None.
Proof.
  induction l as [|x l IH]; simpl; [reflexivity|].
  destruct (key x =? i) eqn:E; simpl; [assumption|].
  now rewrite E.
Qed.

Lemma find_filter_other {A} (key : A -> Z) (i j : Z) (l : list A) :
  i <> j ->
  find (fun x => key x =? j) (filter (fun x => negb (key x =? i)) l)
  = find (fun x => key x =? j) l.
Proof.
  intros Hij. induction l as [|x l IH]; simpl; [reflexivity|].
  destruct (key x =? i) eqn:E; simpl.
  - apply Z.eqb_eq in E. destruct (key x =? j) eqn:F; [|assumption].
    apply Z.eqb_eq in F. lia.
  - destruct (key x =? j); [reflexivity | assumption].
Qed.

Lemma missing_not_403 (i : Z) : missing i <> abort 403.
Proof. unfold missing. destruct (in_int64 i); discriminate. Qed.

Lemma missing_in_range (i : Z) : in_int64 i = true -> missing i = abort 404.
Proof. unfold missing. now intros ->. Qed.

Lemma missing_out_of_range (i : Z) :
  in_int64 i = false -> missing i = unhandled OverflowError.
Proof. unfold missing. now intros ->. Qed.

(** What the three guarded bodies can answer: never 403. *)
Lemma add_new_post_wrapped_not_403 (req : Request) (w : World) :
  fst (run (add_new_post_wrapped req) w) <> abort 403.
Proof.
  unfold run, add_new_post_wrapped, bind, get_world, commit, raise, stop, ret.
  destruct (validate_on_submit CreatePostForm_validate req); [|discriminate].
  destruct (current_user w) as [u|]; [|discriminate].
  destruct (insert_post _ _ _ _ _ _ _) as [e|[p s]]; discriminate.
Qed.

Lemma edit_post_wrapped_not_403 (i : Z) (req : Request) (w : World) :
  fst (run (edit_post_wrapped (i, req)) w) <> abort 403.
Proof.
  unfold run, edit_post_wrapped, bind, get_or_404, commit, ret.
  destruct (get_post i (db w)) as [p|]; [|apply missing_not_403].
  destruct (validate_on_submit CreatePostForm_validate req); [|discriminate].
  destruct (update_post _ _ _ _ _ _) as [e|[p' s]]; discriminate.
Qed.

Lemma delete_post_wrapped_not_403 (i : Z) (w : World) :
  fst (run (delete_post_wrapped i) w) <> abort 403.
Proof.
  unfold run, delete_post_wrapped, bind, get_or_404, commit, ret.
  destruct (get_post i (db w)) as [p|]; [|apply missing_not_403].
  destruct (delete_post_row p (db w)) as [e|[[] s]]; discriminate.
Qed.

Lemma run_admin_only {A} (f : A -> M Response) (args : A) (w : World) :
  run (admin_only f args) w = if is_admin w then run (f args) w else (abort 403, w).
Proof.
  unfold run. rewrite admin_only_gate. destruct (is_admin w); reflexivity.
Qed.

Lemma guarded_403_iff {A} (f : A -> M Response) (args : A) (w : World) :
  fst (run (f args) w) <> abort 403 ->
  (fst (run (admin_only f args) w) = abort 403 <-> ~ authenticated_as 1 w).
Proof.
  intros Hbody. rewrite run_admin_only, <- is_admin_iff.
  destruct (is_admin w); simpl; split; intros H.
  - contradiction.
  - exfalso. now apply H.
  - discriminate.
  - reflexivity.
Qed.

(** C2.  For the create-post, edit-post and delete-post routes, the
    wrapped handler runs exactly when the caller is logged in with
    identifier 1: on such a request the route is its handler; on any
    other (another user, or anonymous) the answer is 403, the world is
    untouched, and this whatever the handler is; and 403 is answered
    only then. *)
Theorem admin_routes_guarded (req : Request) (i : Z) (w : World) :
  (is_admin w = true <-> authenticated_as 1 w)
  /\ (forall (A : Type) (body : A -> M Response) (a : A),
        admin_only body a w
        = if is_admin w then body a w else (Stop (abort 403), w))
  /\ run (add_new_post req) w
     = (if is_admin w then run (add_new_post_wrapped req) w else (abort 403, w))
  /\ run (edit_post i req) w
     = (if is_admin w then run (edit_post_wrapped (i, req)) w else (abort 403, w))
  /\ run (delete_post i) w
     = (if is_admin w then run (delete_post_wrapped i) w else (abort 403, w))
  /\ (fst (run (add_new_post req) w) = abort 403 <-> ~ authenticated_as 1 w)
  /\ (fst (run (edit_post i req) w) = abort 403 <-> ~ authenticated_as 1 w)
  /\ (fst (run (delete_post i) w) = abort 403 <-> ~ authenticated_as 1 w).
Proof.
  split; [apply is_admin_iff|].
  split; [intros; apply admin_only_gate|].
  unfold add_new_post, edit_post, delete_post.
  split; [apply run_admin_only|].
  split; [apply run_admin_only|].
  split; [apply run_admin_only|].
  split; [apply guarded_403_iff, add_new_post_wrapped_not_403|].
  split; [apply (guarded_403_iff edit_post_wrapped (i, req)), edit_post_wrapped_not_403|].
  apply guarded_403_iff, delete_post_wrapped_not_403.
Qed.

(** On the per-post admin routes the guard comes before the lookup: for
    a post identifier with no row, edit-post and delete-post answer 403
    to everyone but the admin, and to the admin what the lookup ends
    with.  The delete-comment route orders the checks the other way: for
    a comment identifier with no row every caller gets what the lookup
    ends with. *)
Lemma guard_and_lookup_order (i c : Z) (req : Request) (w : World) :
  get_post i (db w) = None ->
  get_comment c (db w) = None ->
  run (edit_post i req) w = (if is_admin w then missing i else abort 403, w)
  /\ run (delete_post i) w = (if is_admin w then missing i else abort 403, w)
  /\ run (delete_comment c i) w = (missing c, w).
Proof.
  intros Hp Hc. unfold edit_post, delete_post, delete_comment.
  rewrite !run_admin_only.
  repeat split.
  - destruct (is_admin w); [|reflexivity].
    unfold run, edit_post_wrapped, bind, get_or_404. now rewrite Hp.
  - destruct (is_admin w); [|reflexivity].
    unfold run, delete_post_wrapped, bind, get_or_404. now rewrite Hp.
  - unfold run. rewrite only_commenter_gate. now rewrite Hc.
Qed.

(** The body of delete-comment on a comment that exists. *)
Lemma delete_comment_wrapped_runs (c i : Z) (cm : Comment) (w : World) :
  get_comment c (db w) = Some cm ->
  delete_comment_wrapped c i w
  = (Val (redirect (ep_show_post i)),
     set_db (mkStore (users (db w)) (blog_posts (db w))
               (filter (fun d => negb (comment_id d =? c)) (comments (db w)))) w).
Proof.
  intros H. unfold delete_comment_wrapped, bind, get_or_404, commit, delete_comment_row, ret.
  rewrite H. destruct (get_comment_id c (db w) cm H) as [-> _]. reflexivity.
Qed.

(** Delete-comment with comment identifier [c]: with no such comment
    every caller gets what the lookup ends with (404 for an identifier the
    database takes); with the comment [cm] in the store, the deletion
    runs exactly when the caller is logged in with the identifier of
    [cm]'s author (the row is removed and the caller sent to the post
    page), and every other caller gets 403 and the comment stays. *)
Lemma delete_comment_access (c i : Z) (w : World) :
  (get_comment c (db w) = None -> run (delete_comment c i) w = (missing c, w))
  /\ (forall cm, get_comment c (db w) = Some cm ->
        (is_author cm w = true <-> authenticated_as (comment_author_id cm) w)
        /\ run (delete_comment c i) w
           = (if is_author cm w
              then (redirect (ep_show_post i),
                    set_db (mkStore (users (db w)) (blog_posts (db w))
                              (filter (fun d => negb (comment_id d =? c))
                                      (comments (db w)))) w)
              else (abort 403, w))
        /\ (is_author cm w = true ->
            get_comment c (db (snd (run (delete_comment c i) w))) = None)
        /\ (is_author cm w = false ->
            get_comment c (db (snd (run (delete_comment c i) w))) = Some cm)).
Proof.
  assert (E : forall cm, get_comment c (db w) = Some cm ->
            run (delete_comment c i) w
            = (if is_author cm w
               then (redirect (ep_show_post i),
                     set_db (mkStore (users (db w)) (blog_posts (db w))
                               (filter (fun d => negb (comment_id d =? c))
                                       (comments (db w)))) w)
               else (abort 403, w))).
  { intros cm H. unfold run, delete_comment. rewrite only_commenter_gate, H.
    destruct (is_author cm w); [|reflexivity].
    now rewrite (delete_comment_wrapped_runs c i cm w H). }
  split.
  - intros H. unfold run, delete_comment. now rewrite only_commenter_gate, H.
  - intros cm H. split; [apply is_author_iff|].
    split; [now apply E|].
    rewrite (E cm H). split; intros ->; simpl.
    + unfold get_comment. simpl. apply find_filter_out.
    + assumption.
Qed.

(** ** Commenting and registering *)

(** C5.  A valid comment submitted by a visitor who is not logged in is
    not persisted: on the page of a post that exists the message "You
    need to login or register to comment." is appended to the flashed
    messages and the visitor is redirected to the login page; on an
    identifier with no post the lookup ends the request (404, or the
    driver's OverflowError past 64 bits); the tables are as before in
    every case. *)
Theorem anonymous_comment_not_persisted (i : Z) (req : Request) (w : World) :
  validate_on_submit CommentForm_validate req = true ->
  current_user w = None ->
  run (show_post i req) w
  = match get_post i (db w) with
    | Some _ =>
        (redirect ep_login,
         mkWorld (db w) (session_user_id w)
           (flashes w ++ [("message", "You need to login or register to comment.")])
           (salts_drawn w) (today w) (outbox w))
    | None => (if in_int64 i then abort 404 else unhandled OverflowError, w)
    end
  /\ db (snd (run (show_post i req) w)) = db w.
Proof.
  intros Hv Hcu.
  assert (E : run (show_post i req) w
              = match get_post i (db w) with
                | Some _ =>
                    (redirect ep_login,
                     mkWorld (db w) (session_user_id w)
                       (flashes w
                        ++ [("message", "You need to login or register to comment.")])
                       (salts_drawn w) (today w) (outbox w))
                | None => (if in_int64 i then abort 404 else unhandled OverflowError, w)
                end).
  { unfold run, show_post, bind, get_or_404, get_world.
    destruct (get_post i (db w)) as [p|]; [|reflexivity].
    rewrite Hv, Hcu. reflexivity. }
  split; [exact E|]. rewrite E.
  destruct (get_post i (db w)); reflexivity.
Qed.

Lemma select_user_by_email_some (e : string) (s : Store) (u : User) :
  In u (users s) -> user_email u = e ->
  exists u', select_user_by_email (Some e) s = Some u'.
Proof.
  intros Hin He. unfold select_user_by_email.
  destruct (find (fun u0 => String.eqb (user_email u0) e) (users s)) as [u'|] eqn:F.
  - now exists u'.
  - apply (find_none _ _ F) in Hin. simpl in Hin.
    rewrite He, String.eqb_refl in Hin. discriminate.
Qed.

Lemma select_user_by_email_none (e : option string) (s : Store) :
  (forall u, In u (users s) -> e <> Some (user_email u)) ->
  select_user_by_email e s = None.
Proof.
  intros H. destruct e as [e|]; [|reflexivity]. simpl.
  destruct (find (fun u0 => String.eqb (user_email u0) e) (users s)) as [u'|] eqn:F;
    [|reflexivity].
  apply find_some in F as [Hin He]. apply String.eqb_eq in He.
  exfalso. apply (H u' Hin). now rewrite He.
Qed.

Lemma register_existing (req : Request) (w : World) (u : User) :
  validate_on_submit RegisterForm_validate req = true ->
  In u (users (db w)) ->
  form_get "email" (form req) = Some (user_email u) ->
  run (register req) w
  = (redirect ep_login, with_flash "User already exists, please log in." "message" w).
Proof.
  intros Hv Hin He. unfold run, register, bind, get_world.
  rewrite Hv, He.
  destruct (select_user_by_email_some (user_email u) (db w) u Hin eq_refl) as [u' ->].
  reflexivity.
Qed.

(** C6.  A valid registration whose email is the email of an existing
    user creates no user and computes no hash (no salt is drawn): the
    caller is flashed a message and redirected to the login page, and so
    it is for every repetition of the request.  The message is "User
    already exists, please log in.", appended once per request. *)
Theorem register_existing_email (req : Request) (w : World) (u : User) (n : nat) :
  validate_on_submit RegisterForm_validate req = true ->
  In u (users (db w)) ->
  form_get "email" (form req) = Some (user_email u) ->
  let w' := served (register req) n w in
  db w' = db w
  /\ salts_drawn w' = salts_drawn w
  /\ session_user_id w' = session_user_id w
  /\ run (register req) w'
     = (redirect ep_login,
        with_flash "User already exists, please log in." "message" w')
  /\ flashes w'
     = (flashes w ++ repeat ("message", "User already exists, please log in.") n)%list
  /\ flashes (snd (run (register req) w'))
     = (flashes w' ++ [("message", "User already exists, please log in.")])%list.
Proof.
  intros Hv Hin He. induction n as [|n IH]; simpl.
  - repeat split; try (now rewrite app_nil_r);
      now rewrite (register_existing req w u).
  - destruct IH as (Hdb & Hs & Hss & Hrun & Hfl & Hfl'). rewrite Hrun. simpl.
    assert (R : run (register req)
                  (with_flash "User already exists, please log in." "message"
                     (served (register req) n w))
                = (redirect ep_login,
                   with_flash "User already exists, please log in." "message"
                     (with_flash "User already exists, please log in." "message"
                        (served (register req) n w)))).
    { apply (register_existing req _ u); [assumption| |assumption].
      simpl. now rewrite Hdb. }
    repeat split; try assumption.
    + rewrite Hfl. rewrite <- app_assoc. f_equal.
      change (("message", "User already exists, please log in.")
              :: repeat ("message", "User already exists, please log in.") n)
        with (repeat ("message", "User already exists, please log in.") (S n)).
      now rewrite <- repeat_cons.
    + now rewrite R.
Qed.

Lemma data_required_get (key : string) (f : FormData) :
  data_required key f = true -> exists v, form_get key f = Some v /\ v <> "".
Proof.
  unfold data_required. destruct (form_get key f) as [v|]; [|discriminate].
  intros H. exists v. split; [reflexivity|].
  intros ->. discriminate.
Qed.

Lemma validate_on_submit_true (validate : FormData -> bool) (req : Request) :
  validate_on_submit validate req = true -> method req = POST /\ validate (form req) = true.
Proof.
  unfold validate_on_submit. destruct (method req); [discriminate | now split].
Qed.

Lemma next_id_above (ids : list Z) (x : Z) : In x ids -> x < next_id ids.
Proof.
  unfold next_id. induction ids as [|y ids IH]; simpl; [contradiction|].
  intros [->|H]; [lia|]. specialize (IH H). lia.
Qed.

Lemma find_app_last {A} (f : A -> bool) (l : list A) (x : A) :
  find f l = None -> f x = true -> find f (l ++ [x]) = Some x.
Proof.
  intros N Hx. induction l as [|y l IH]; simpl in *.
  - now rewrite Hx.
  - destruct (f y); [discriminate | now apply IH].
Qed.

Lemma get_user_appended (us : list User) (u : User) (posts : list BlogPost)
    (cs : list Comment) :
  user_id u = next_id (map user_id us) ->
  get_user (user_id u) (mkStore (us ++ [u]) posts cs) = Some u.
Proof.
  intros Hid. unfold get_user. simpl.
  apply find_app_last; [|apply Z.eqb_refl].
  destruct (find (fun v => user_id v =? user_id u) us) as [v|] eqn:F; [|reflexivity].
  apply find_some in F as [Hin Heq]. apply Z.eqb_eq in Heq.
  pose proof (next_id_above (map user_id us) (user_id v) (in_map user_id us v Hin)).
  lia.
Qed.

Lemma occurs_app (c : ascii) (a b : string) :
  occurs c (a ++ b) = occurs c a || occurs c b.
Proof.
  induction a as [|d a IH]; simpl; [reflexivity|].
  now rewrite IH, orb_assoc.
Qed.

(** C7.  A valid registration whose email is the email of no user
    creates a user with the submitted name and email whose password
    field is what the hash primitive returns, "method$salt$digest" over a
    newly drawn salt of length 8 (so it differs from any submitted
    password without a "$"), logs that user in, and redirects to the
    post list. *)
Theorem register_fresh_email (req : Request) (w : World) :
  validate_on_submit RegisterForm_validate req = true ->
  (forall u, In u (users (db w)) -> form_get "email" (form req) <> Some (user_email u)) ->
  exists name email password,
    form_get "name" (form req) = Some name
    /\ form_get "email" (form req) = Some email
    /\ form_get "password" (form req) = Some password
    /\ let salt := gen_salt (salts_drawn w) 8 in
       let digest := fst (hash_internal "pbkdf2:sha256" salt password) in
       let actual_method := snd (hash_internal "pbkdf2:sha256" salt password) in
       let new_user := mkUser (next_id (map user_id (users (db w)))) name email
                         (actual_method ++ "$" ++ salt ++ "$" ++ digest) in
       let w' := snd (run (register req) w) in
       fst (run (register req) w) = redirect ep_get_all_posts
       /\ db w' = mkStore (users (db w) ++ [new_user]) (blog_posts (db w)) (comments (db w))
       /\ session_user_id w' = Some (user_id new_user)
       /\ current_user w' = Some new_user
       /\ salts_drawn w' = S (salts_drawn w)
       /\ flashes w' = flashes w
       /\ (occurs "$" password = false -> user_password new_user <> password).
Proof.
  intros Hv Hfresh.
  destruct (validate_on_submit_true _ _ Hv) as [_ Hf].
  unfold RegisterForm_validate in Hf.
  apply andb_prop in Hf as [Hf _]. apply andb_prop in Hf as [Hf Hpw].
  apply andb_prop in Hf as [Hf _]. apply andb_prop in Hf as [Hname Hemail].
  destruct (data_required_get _ _ Hname) as (name & Gn & _).
  destruct (data_required_get _ _ Hemail) as (email & Ge & _).
  destruct (data_required_get _ _ Hpw) as (password & Gp & _).
  exists name, email, password. repeat (split; [assumption|]).
  assert (Hnone : existsb (fun u => String.eqb (user_email u) email) (users (db w)) = false).
  { destruct (existsb _ _) eqn:E; [|reflexivity].
    apply existsb_exists in E as (u & Hin & He). apply String.eqb_eq in He.
    exfalso. apply (Hfresh u Hin). now rewrite Ge, He. }
  unfold run, register, bind, get_world, generate_password_hash, commit,
    insert_user, login_user, ret.
  rewrite Hv, (select_user_by_email_none _ _ Hfresh), Gn, Ge, Gp. simpl.
  destruct (hash_internal "pbkdf2:sha256" (gen_salt (salts_drawn w) 8) password)
    as [h m] eqn:Eh.
  simpl. rewrite Hnone. simpl.
  repeat split.
  - unfold current_user, load_user. simpl.
    exact (get_user_appended (users (db w))
             (mkUser (next_id (map user_id (users (db w)))) name email
                (m ++ "$" ++ gen_salt (salts_drawn w) 8 ++ "$" ++ h))
             (blog_posts (db w)) (comments (db w)) eq_refl).
  - intros Hocc Heq. rewrite <- Heq in Hocc.
    rewrite !occurs_app in Hocc. simpl in Hocc.
    rewrite orb_true_r in Hocc. discriminate.
Qed.

(** ** Logging in *)

Lemma NoDup_map_inj {A B} (f : A -> B) (l : list A) (x y : A) :
  NoDup (map f l) -> In x l -> In y l -> f x = f y -> x = y.
Proof.
  induction l as [|a l IH]; simpl; [contradiction|].
  intros Hnd Hx Hy Hf. inversion Hnd as [|? ? Hnotin Hnd']; subst.
  destruct Hx as [->|Hx], Hy as [->|Hy].
  - reflexivity.
  - exfalso. apply Hnotin. rewrite Hf. now apply in_map.
  - exfalso. apply Hnotin. rewrite <- Hf. now apply in_map.
  - now apply IH.
Qed.

(** The unique constraint on [user.email] survives an insert. *)
Lemma insert_user_keeps_emails_unique (n e p : option string) (s s' : Store) (u : User) :
  NoDup (map user_email (users s)) ->
  insert_user n e p s = inr (u, s') ->
  NoDup (map user_email (users s')).
Proof.
  intros Hnd. unfold insert_user.
  destruct n as [n|], e as [e|], p as [p|]; simpl; try discriminate.
  destruct (existsb _ _) eqn:E; [discriminate|].
  intros H. injection H as <- <-. simpl.
  rewrite map_app. simpl.
  apply NoDup_app; [assumption | |].
  - repeat constructor. intros [].
  - intros x Hx [<-|[]].
    apply in_map_iff in Hx as (v & Hv & Hin).
    assert (T : existsb (fun u0 => String.eqb (user_email u0) e) (users s) = true).
    { apply existsb_exists. exists v. split; [assumption|]. now apply String.eqb_eq. }
    congruence.
Qed.

(** C3.  A login submission with both fields filled in succeeds (the
    session is bound to the matching user and the caller is redirected to
    the post list) exactly when some user has that email and a stored
    hash that verifies that password.  Otherwise the session is as
    before, one message is appended to the flashed ones ("That email
    does not exist. Please try again." when no user has the email,
    "Invalid password. Please try again." when one has) and the caller is
    sent to the login form again. *)
Theorem login_succeeds_iff (req : Request) (w : World) :
  validate_on_submit LoginForm_validate req = true ->
  NoDup (map user_email (users (db w))) ->
  exists email password,
    form_get "email" (form req) = Some email
    /\ form_get "password" (form req) = Some password
    /\ (credentials_match check_password_hash email password (db w)
        <-> exists u, In u (users (db w)) /\ user_email u = email
                      /\ run (login req) w
                         = (redirect ep_get_all_posts,
                            mkWorld (db w) (Some (user_id u)) (flashes w)
                              (salts_drawn w) (today w) (outbox w)))
    /\ ((forall u, In u (users (db w)) -> user_email u <> email) ->
        run (login req) w
        = (redirect ep_login,
           mkWorld (db w) (session_user_id w)
             (flashes w ++ [("message", "That email does not exist. Please try again.")])
             (salts_drawn w) (today w) (outbox w)))
    /\ ((exists u, In u (users (db w)) /\ user_email u = email) ->
        ~ credentials_match check_password_hash email password (db w) ->
        run (login req) w
        = (redirect ep_login,
           mkWorld (db w) (session_user_id w)
             (flashes w ++ [("message", "Invalid password. Please try again.")])
             (salts_drawn w) (today w) (outbox w))).
Proof.
  intros Hv Hnd.
  destruct (validate_on_submit_true _ _ Hv) as [_ Hf].
  unfold LoginForm_validate in Hf. apply andb_prop in Hf as [Hemail Hpw].
  destruct (data_required_get _ _ Hemail) as (email & Ge & _).
  destruct (data_required_get _ _ Hpw) as (password & Gp & _).
  exists email, password. split; [assumption|]. split; [assumption|].
  unfold run, login, bind, get_world, check_password, login_user, ret.
  rewrite Hv, Ge, Gp. simpl.
  destruct (find (fun u => String.eqb (user_email u) email) (users (db w)))
    as [u0|] eqn:F.
  - apply find_some in F as [Hin He]. apply String.eqb_eq in He.
    destruct (check_password_hash (user_password u0) password) eqn:C; simpl.
    + split; [split|split].
      * intros _. now exists u0.
      * intros _. now exists u0.
      * intros Hnone. exfalso. now apply (Hnone u0).
      * intros _ Hno. exfalso. apply Hno. now exists u0.
    + assert (Hno : ~ credentials_match check_password_hash email password (db w)).
      { intros (u & Hu & Hue & Hc).
        assert (u = u0) by (apply (NoDup_map_inj user_email (users (db w))); congruence).
        congruence. }
      split; [split|split].
      * intros H. contradiction.
      * intros (u & _ & _ & H). discriminate.
      * intros Hnone. exfalso. now apply (Hnone u0).
      * reflexivity.
  - assert (Hnone : forall u, In u (users (db w)) -> user_email u <> email).
    { intros u Hu Hue. apply (find_none _ _ F) in Hu. simpl in Hu.
      rewrite Hue, String.eqb_refl in Hu. discriminate. }
    split; [split|split].
    + intros (u & Hu & Hue & _). exfalso. now apply (Hnone u).
    + intros (u & _ & _ & H). discriminate.
    + reflexivity.
    + intros (u & Hu & Hue). exfalso. now apply (Hnone u).
Qed.

(** ** Deleting and editing posts *)

Lemma no_child_nothing_orphaned (p : BlogPost) (cs : list Comment) :
  existsb (is_child p) cs = false ->
  map (fun c => if is_child p c then orphan c else c) cs = cs.
Proof.
  induction cs as [|c cs IH]; simpl; [reflexivity|].
  destruct (is_child p c); simpl; [discriminate|].
  intros H. now rewrite IH.
Qed.

Lemma delete_post_wrapped_runs (i : Z) (p : BlogPost) (w : World) :
  get_post i (db w) = Some p ->
  run (delete_post_wrapped i) w
  = if existsb (is_child p) (comments (db w))
    then (unhandled (IntegrityError "NOT NULL constraint failed: comments.post_id"), w)
    else (redirect ep_get_all_posts,
          set_db (mkStore (users (db w))
                    (filter (fun q => negb (post_id q =? i)) (blog_posts (db w)))
                    (comments (db w))) w).
Proof.
  intros H. destruct (get_post_id i (db w) p H) as [Hid _].
  unfold run, delete_post_wrapped, bind, get_or_404, commit, delete_post_row, ret.
  rewrite H.
  destruct (existsb (is_child p) (comments (db w))) eqn:E; [reflexivity|].
  unfold stage_delete_post.
  now rewrite (no_child_nothing_orphaned p _ E), Hid.
Qed.

(** What delete-post does to the tables.  It removes no comment: the
    comments table is the same after the request as before it, whoever
    asks and whatever the identifier.  When the admin deletes a post
    that no comment has as its parent, the post row is removed (it is no
    longer found), the other rows stay, and the caller is redirected to
    the post list. *)
Lemma delete_post_leaves_comments (i : Z) (w : World) :
  comments (db (snd (run (delete_post i) w))) = comments (db w)
  /\ users (db (snd (run (delete_post i) w))) = users (db w)
  /\ (forall p, is_admin w = true ->
        get_post i (db w) = Some p ->
        existsb (is_child p) (comments (db w)) = false ->
        run (delete_post i) w
        = (redirect ep_get_all_posts,
           set_db (mkStore (users (db w))
                     (filter (fun q => negb (post_id q =? i)) (blog_posts (db w)))
                     (comments (db w))) w)
        /\ get_post i (db (snd (run (delete_post i) w))) = None
        /\ (forall j, i <> j ->
              get_post j (db (snd (run (delete_post i) w))) = get_post j (db w))).
Proof.
  unfold delete_post. rewrite run_admin_only.
  assert (F : forall r, (if is_admin w then r else (abort 403, w)) = r \/
                        (if is_admin w then r else (abort 403, w)) = (abort 403, w))
    by (intros r; destruct (is_admin w); auto).
  assert (K : comments (db (snd (run (delete_post_wrapped i) w))) = comments (db w)
              /\ users (db (snd (run (delete_post_wrapped i) w))) = users (db w)).
  { destruct (get_post i (db w)) as [p|] eqn:G.
    - rewrite (delete_post_wrapped_runs i p w G).
      destruct (existsb (is_child p) (comments (db w))); split; reflexivity.
    - unfold run, delete_post_wrapped, bind, get_or_404. rewrite G. split; reflexivity. }
  split; [|split].
  - destruct (is_admin w); [apply K | reflexivity].
  - destruct (is_admin w); [apply K | reflexivity].
  - intros p Ha G E. rewrite Ha, (delete_post_wrapped_runs i p w G), E. simpl.
    split; [reflexivity|]. split.
    + unfold get_post. simpl. apply find_filter_out.
    + intros j Hij. unfold get_post. simpl. now apply find_filter_other.
Qed.

Lemma find_updated {A} (key : A -> Z) (i : Z) (x x' : A) (l : list A) :
  find (fun y => key y =? i) l = Some x -> key x' = i ->
  find (fun y => key y =? i) (map (fun y => if key y =? i then x' else y) l) = Some x'.
Proof.
  intros H Hx'. induction l as [|y l IH]; simpl in *; [discriminate|].
  destruct (key y =? i) eqn:E.
  - now rewrite Hx', Z.eqb_refl.
  - rewrite E. now apply IH.
Qed.

Lemma find_updated_other {A} (key : A -> Z) (i j : Z) (x' : A) (l : list A) :
  j <> i -> key x' = i ->
  find (fun y => key y =? j) (map (fun y => if key y =? i then x' else y) l)
  = find (fun y => key y =? j) l.
Proof.
  intros Hji Hx'. induction l as [|y l IH]; simpl; [reflexivity|].
  destruct (key y =? i) eqn:E.
  - apply Z.eqb_eq in E.
    replace (key x' =? j) with false by (symmetry; apply Z.eqb_neq; lia).
    replace (key y =? j) with false by (symmetry; apply Z.eqb_neq; lia).
    assumption.
  - destruct (key y =? j); [reflexivity | assumption].
Qed.

Lemma CreatePostForm_fields (req : Request) :
  validate_on_submit CreatePostForm_validate req = true ->
  exists t st im b,
    form_get "title" (form req) = Some t
    /\ form_get "subtitle" (form req) = Some st
    /\ form_get "img_url" (form req) = Some im
    /\ form_get "body" (form req) = Some b.
Proof.
  intros Hv. destruct (validate_on_submit_true _ _ Hv) as [_ Hf].
  unfold CreatePostForm_validate in Hf.
  apply andb_prop in Hf as [Hf Hb]. apply andb_prop in Hf as [Hf Hi].
  apply andb_prop in Hf as [Ht Hs].
  destruct (data_required_get _ _ Ht) as (t & Gt & _).
  destruct (data_required_get _ _ Hs) as (st & Gs & _).
  destruct (data_required_get _ _ Hi) as (im & Gi & _).
  destruct (data_required_get _ _ Hb) as (b & Gb & _).
  now exists t, st, im, b.
Qed.

(** Creating a post stamps it with today's date. *)
Lemma add_new_post_stamps_today (req : Request) (w : World) :
  is_admin w = true ->
  validate_on_submit CreatePostForm_validate req = true ->
  (forall q, In q (blog_posts (db w)) -> form_get "title" (form req) <> Some (title q)) ->
  exists u t st im b,
    current_user w = Some u
    /\ form_get "title" (form req) = Some t
    /\ form_get "subtitle" (form req) = Some st
    /\ form_get "img_url" (form req) = Some im
    /\ form_get "body" (form req) = Some b
    /\ run (add_new_post req) w
       = (redirect ep_get_all_posts,
          set_db (mkStore (users (db w))
                    (blog_posts (db w)
                     ++ [mkBlogPost (next_id (map post_id (blog_posts (db w))))
                           t st (strftime_B_d_Y (today w)) b im (user_id u)])
                    (comments (db w))) w).
Proof.
  intros Ha Hv Hfresh.
  destruct (CreatePostForm_fields req Hv) as (t & st & im & b & Gt & Gs & Gi & Gb).
  unfold is_admin in Ha. destruct (current_user w) as [u|] eqn:Hcu; [|discriminate].
  exists u, t, st, im, b. repeat (split; [assumption || reflexivity|]).
  unfold add_new_post. rewrite run_admin_only. unfold is_admin. rewrite Hcu, Ha.
  unfold run, add_new_post_wrapped, bind, get_world, commit, insert_post, ret.
  rewrite Hv, Hcu, Gt, Gs, Gi, Gb. simpl.
  assert (N : existsb (fun q => String.eqb (title q) t) (blog_posts (db w)) = false).
  { destruct (existsb _ _) eqn:E; [|reflexivity].
    apply existsb_exists in E as (q & Hq & He). apply String.eqb_eq in He.
    exfalso. apply (Hfresh q Hq). now rewrite Gt, He. }
  now rewrite N.
Qed.

(** The frame of an edit.  A valid edit of post [p] by the admin never
    changes [p]'s date or author, nor any other row; when the submitted
    title is not the title of another post, [p]'s title, subtitle, image
    URL and body become the submitted ones and the caller is redirected
    to [p]'s page.  A post is stamped with the current date when it is
    created. *)
Lemma edit_post_frame (i : Z) (req : Request) (w : World) (p : BlogPost) :
  is_admin w = true ->
  get_post i (db w) = Some p ->
  validate_on_submit CreatePostForm_validate req = true ->
  exists t st im b,
    form_get "title" (form req) = Some t
    /\ form_get "subtitle" (form req) = Some st
    /\ form_get "img_url" (form req) = Some im
    /\ form_get "body" (form req) = Some b
    /\ let w' := snd (run (edit_post i req) w) in
       users (db w') = users (db w)
       /\ comments (db w') = comments (db w)
       /\ (forall j, j <> i -> get_post j (db w') = get_post j (db w))
       /\ (exists p', get_post i (db w') = Some p'
                      /\ date p' = date p
                      /\ post_author_id p' = post_author_id p)
       /\ ((forall q, In q (blog_posts (db w)) -> post_id q <> i -> title q <> t) ->
           fst (run (edit_post i req) w) = redirect (ep_show_post i)
           /\ get_post i (db w')
              = Some (mkBlogPost i t st (date p) b im (post_author_id p)))
       /\ (forall req', validate_on_submit CreatePostForm_validate req' = true ->
             (forall q, In q (blog_posts (db w)) ->
                        form_get "title" (form req') <> Some (title q)) ->
             exists created,
               blog_posts (db (snd (run (add_new_post req') w)))
               = (blog_posts (db w) ++ [created])%list
               /\ date created = strftime_B_d_Y (today w)).
Proof.
  intros Ha G Hv.
  destruct (CreatePostForm_fields req Hv) as (t & st & im & b & Gt & Gs & Gi & Gb).
  exists t, st, im, b. repeat (split; [assumption|]).
  destruct (get_post_id i (db w) p G) as [Hid _].
  cbv zeta.
  assert (Hnew : forall req', validate_on_submit CreatePostForm_validate req' = true ->
             (forall q, In q (blog_posts (db w)) ->
                        form_get "title" (form req') <> Some (title q)) ->
             exists created,
               blog_posts (db (snd (run (add_new_post req') w)))
               = (blog_posts (db w) ++ [created])%list
               /\ date created = strftime_B_d_Y (today w)).
  { intros req' Hv' Hfresh.
    destruct (add_new_post_stamps_today req' w Ha Hv' Hfresh)
      as (u & t' & st' & im' & b' & _ & _ & _ & _ & _ & ->).
    eexists. split; reflexivity. }
  unfold edit_post. rewrite run_admin_only, Ha.
  unfold run, edit_post_wrapped, bind, get_or_404, commit, update_post, ret.
  rewrite G, Hv, Gt, Gs, Gi, Gb. simpl. rewrite Hid.
  set (taken := existsb (fun q => negb (post_id q =? i) && String.eqb (title q) t)
                        (blog_posts (db w))).
  split; [destruct taken; reflexivity|].
  split; [destruct taken; reflexivity|].
  split.
  { intros j Hj. destruct taken; [reflexivity|]. unfold get_post. simpl.
    now apply find_updated_other. }
  split.
  { destruct taken eqn:T; simpl.
    - now exists p.
    - exists (mkBlogPost i t st (date p) b im (post_author_id p)).
      split; [|split; reflexivity].
      unfold get_post. simpl. now apply (find_updated post_id i p). }
  split.
  { intros Hfree.
    assert (T : taken = false).
    { unfold taken. destruct (existsb _ _) eqn:E; [|reflexivity].
      apply existsb_exists in E as (q & Hq & He).
      apply andb_prop in He as [Hne He]. apply String.eqb_eq in He.
      apply negb_true_iff, Z.eqb_neq in Hne.
      exfalso. now apply (Hfree q Hq Hne). }
    rewrite T. simpl. split; [reflexivity|].
    unfold get_post. simpl. now apply (find_updated post_id i p). }
  exact Hnew.
Qed.

(** ** The contact form *)


(** ** The site as a whole *)

Lemma current_user_row (w : World) (u : User) :
  current_user w = Some u ->
  In u (users (db w)) /\ session_user_id w = Some (user_id u).
Proof.
  unfold current_user, load_user, get_user.
  destruct (session_user_id w) as [i|]; [|discriminate].
  intros H. apply find_some in H as [Hin Heq]. apply Z.eqb_eq in Heq.
  split; [assumption | now rewrite Heq].
Qed.

Lemma is_admin_user (w : World) :
  is_admin w = true ->
  exists a, current_user w = Some a /\ user_id a = 1 /\ In a (users (db w)).
Proof.
  intros H. apply is_admin_iff in H as (a & Ha & Hid).
  exists a. repeat split; try assumption. now apply (current_user_row w a).
Qed.

Lemma show_post_change (i : Z) (req : Request) (w : World) :
  Change (current_user w) (db w) (db (snd (run (show_post i req) w))).
Proof.
  unfold run, show_post, bind, get_or_404, get_world.
  destruct (get_post i (db w)) as [p|] eqn:G; [|apply change_nothing].
  destruct (validate_on_submit CommentForm_validate req); [|apply change_nothing].
  destruct (current_user w) as [u|] eqn:Hcu; [|apply change_nothing].
  unfold commit, insert_comment, ret.
  destruct (form_get "comment" (form req)) as [t|]; simpl; [|apply change_nothing].
  destruct (get_post_id i (db w) p G) as [Hid _].
  apply (change_comment_added (Some u) (db w) u p t).
  - reflexivity.
  - now apply (current_user_row w u).
  - now rewrite Hid.
Qed.

Lemma insert_user_change (cu : option User) (n e p : option string) (s s' : Store)
    (u : User) :
  insert_user n e p s = inr (u, s') -> Change cu s s'.
Proof.
  unfold insert_user.
  destruct n as [n|], e as [e|], p as [p|]; simpl; try discriminate.
  destruct (existsb (fun v => String.eqb (user_email v) e) (users s)) eqn:E;
    [discriminate|].
  intros H. injection H as _ <-.
  apply change_user_added. intros v Hv He.
  assert (T : existsb (fun v0 => String.eqb (user_email v0) e) (users s) = true).
  { apply existsb_exists. exists v. split; [assumption | now apply String.eqb_eq]. }
  congruence.
Qed.

Lemma register_change (req : Request) (w : World) :
  Change (current_user w) (db w) (db (snd (run (register req) w))).
Proof.
  unfold run, register, bind, get_world.
  destruct (validate_on_submit RegisterForm_validate req); [|apply change_nothing].
  destruct (select_user_by_email _ (db w)); [apply change_nothing|].
  unfold generate_password_hash.
  destruct (form_get "password" (form req)) as [pw|]; [|apply change_nothing].
  destruct (hash_internal _ _ pw) as [h m].
  unfold commit. cbn [db].
  destruct (insert_user _ _ _ (db w)) as [x|[u s']] eqn:I; [apply change_nothing|].
  simpl. now apply (insert_user_change _ _ _ _ _ _ _ I).
Qed.

Lemma login_db (req : Request) (w : World) :
  db (snd (run (login req) w)) = db w.
Proof.
  unfold run, login, bind, get_world, check_password, login_user, raise, stop, ret.
  destruct (validate_on_submit LoginForm_validate req); [|reflexivity].
  destruct (select_user_by_email _ (db w)) as [u|]; [|reflexivity].
  destruct (form_get "password" (form req)) as [pw|]; [|reflexivity].
  destruct (check_password_hash (user_password u) pw); reflexivity.
Qed.

Lemma add_new_post_change (req : Request) (w : World) :
  Change (current_user w) (db w) (db (snd (run (add_new_post req) w))).
Proof.
  unfold add_new_post. rewrite run_admin_only.
  destruct (is_admin w) eqn:Ha; [|apply change_nothing].
  destruct (is_admin_user w Ha) as (a & Hcu & Hid & Hin).
  unfold run, add_new_post_wrapped, bind, get_world, commit, insert_post, ret.
  destruct (validate_on_submit CreatePostForm_validate req); [|apply change_nothing].
  rewrite Hcu.
  destruct (form_get "title" (form req)) as [t|]; [|apply change_nothing].
  destruct (form_get "subtitle" (form req)) as [st|]; [|apply change_nothing].
  destruct (form_get "body" (form req)) as [b|]; [|apply change_nothing].
  destruct (form_get "img_url" (form req)) as [im|]; [|apply change_nothing].
  simpl.
  destruct (existsb (fun q => String.eqb (title q) t) (blog_posts (db w))) eqn:E;
    [apply change_nothing|].
  simpl. apply (change_post_added (Some a) (db w) a); try assumption; try reflexivity.
  intros q Hq He.
  assert (T : existsb (fun q0 => String.eqb (title q0) t) (blog_posts (db w)) = true).
  { apply existsb_exists. exists q. split; [assumption | now apply String.eqb_eq]. }
  congruence.
Qed.

Lemma edit_post_change (i : Z) (req : Request) (w : World) :
  Change (current_user w) (db w) (db (snd (run (edit_post i req) w))).
Proof.
  unfold edit_post. rewrite run_admin_only.
  destruct (is_admin w) eqn:Ha; [|apply change_nothing].
  destruct (is_admin_user w Ha) as (a & Hcu & Hid & Hin).
  unfold run, edit_post_wrapped, bind, get_or_404, commit, update_post, ret.
  destruct (get_post i (db w)) as [p|] eqn:G; [|apply change_nothing].
  destruct (get_post_id i (db w) p G) as [Hp _].
  destruct (validate_on_submit CreatePostForm_validate req); [|apply change_nothing].
  destruct (form_get "title" (form req)) as [t|]; [|apply change_nothing].
  destruct (form_get "subtitle" (form req)) as [st|]; [|apply change_nothing].
  destruct (form_get "img_url" (form req)) as [im|]; [|apply change_nothing].
  destruct (form_get "body" (form req)) as [b|]; [|apply change_nothing].
  simpl.
  destruct (existsb _ (blog_posts (db w))) eqn:E; [apply change_nothing|].
  simpl. rewrite Hcu.
  apply (change_post_edited (Some a) (db w) a p); try assumption; try reflexivity.
  - now rewrite Hp.
  - intros q Hq Hne He.
    assert (T : existsb (fun q0 => negb (post_id q0 =? post_id p)
                                   && String.eqb (title q0) t)
                        (blog_posts (db w)) = true).
    { apply existsb_exists. exists q. split; [assumption|].
      apply andb_true_intro. split.
      - now apply negb_true_iff, Z.eqb_neq.
      - now apply String.eqb_eq. }
    congruence.
Qed.

Lemma delete_post_change (i : Z) (w : World) :
  Change (current_user w) (db w) (db (snd (run (delete_post i) w))).
Proof.
  unfold delete_post. rewrite run_admin_only.
  destruct (is_admin w) eqn:Ha; [|apply change_nothing].
  destruct (is_admin_user w Ha) as (a & Hcu & Hid & Hin).
  destruct (get_post i (db w)) as [p|] eqn:G.
  - rewrite (delete_post_wrapped_runs i p w G).
    destruct (get_post_id i (db w) p G) as [Hp _].
    destruct (existsb (is_child p) (comments (db w))) eqn:E; [apply change_nothing|].
    simpl. rewrite Hcu, <- Hp.
    apply (change_post_deleted (Some a) (db w) a p); try assumption; try reflexivity.
    now rewrite Hp.
  - unfold run, delete_post_wrapped, bind, get_or_404. rewrite G. apply change_nothing.
Qed.

Lemma delete_comment_change (c i : Z) (w : World) :
  Change (current_user w) (db w) (db (snd (run (delete_comment c i) w))).
Proof.
  unfold run, delete_comment. rewrite only_commenter_gate.
  destruct (get_comment c (db w)) as [cm|] eqn:G; [|apply change_nothing].
  destruct (is_author cm w) eqn:Ha; [|apply change_nothing].
  rewrite (delete_comment_wrapped_runs c i cm w G). simpl.
  destruct (get_comment_id c (db w) cm G) as [Hc _].
  apply is_author_iff in Ha as (u & Hcu & Hu).
  rewrite Hcu, <- Hc.
  apply (change_comment_deleted (Some u) (db w) u cm); try reflexivity.
  - now rewrite Hc.
  - now symmetry.
Qed.

(** One request to the contact page, in full. *)
Lemma contact_runs (relay : Relay) (req : Request) (w : World) :
  run (contact relay req) w
  = (render_template "contact.html",
     match method req with
     | GET => w
     | POST =>
         mkWorld (db w) (session_user_id w)
           (flashes w ++ contact_flashes relay (form req))
           (salts_drawn w) (today w)
           (outbox w ++ contact_mails relay (form req))
     end).
Proof.
  destruct req as [[|] data]; [reflexivity|].
  unfold run, contact, bind, ret, contact_flashes, contact_mails, block_outcome,
    message_text.
  cbn [method form].
  unfold contact_send, contact_message, sendmail, try_bind, smtp, form_item,
    hand_over, try_flash, try_ret, flash.
  destruct relay as [c s l m q]. cbn [on_connect on_starttls on_login on_sendmail on_quit].
  destruct c as [tc|]; [cbn; now rewrite app_nil_r|].
  destruct s as [ts|]; [destruct q; cbn; now rewrite app_nil_r|].
  destruct l as [tl|]; [destruct q; cbn; now rewrite app_nil_r|].
  destruct (form_get "name" data); [|destruct q; cbn; now rewrite app_nil_r].
  destruct (form_get "message" data); [|destruct q; cbn; now rewrite app_nil_r].
  destruct (form_get "email" data); [|destruct q; cbn; now rewrite app_nil_r].
  destruct (form_get "phone" data); [|destruct q; cbn; now rewrite app_nil_r].
  cbn [msg].
  destruct (is_ascii _); [|destruct q; cbn; now rewrite app_nil_r].
  destruct m as [tm|]; [destruct q; cbn; now rewrite app_nil_r|].
  destruct q; cbn; [now rewrite <- app_assoc | reflexivity].
Qed.

Lemma contact_db (relay : Relay) (req : Request) (w : World) :
  db (snd (run (contact relay req) w)) = db w.
Proof.
  rewrite contact_runs. destruct (method req); reflexivity.
Qed.

(** Every request changes the tables in one of the ways of [Change]. *)
Lemma serve_change (relay : Relay) (r : Route) (req : Request) (w : World) :
  Change (current_user w) (db w) (db (snd (run (serve relay r req) w))).
Proof.
  unfold serve. destruct (allows r (method req)); [|apply change_nothing].
  destruct r.
  - apply change_nothing.
  - apply show_post_change.
  - apply register_change.
  - rewrite login_db. apply change_nothing.
  - apply change_nothing.
  - apply add_new_post_change.
  - apply edit_post_change.
  - apply delete_post_change.
  - apply delete_comment_change.
  - apply change_nothing.
  - rewrite contact_db. apply change_nothing.
Qed.

(** Lists of rows and their keys. *)
Lemma next_id_fresh (ids : list Z) : ~ In (next_id ids) ids.
Proof.
  intros H. apply next_id_above in H. lia.
Qed.

Lemma NoDup_map_snoc {A B} (f : A -> B) (l : list A) (x : A) :
  NoDup (map f l) -> ~ In (f x) (map f l) -> NoDup (map f (l ++ [x])).
Proof.
  intros Hnd Hx. rewrite map_app. simpl.
  apply NoDup_app; [assumption | |].
  - constructor; [intros [] | constructor].
  - intros y Hy [<-|[]]. contradiction.
Qed.

Lemma NoDup_map_filter {A B} (f : A -> B) (g : A -> bool) (l : list A) :
  NoDup (map f l) -> NoDup (map f (filter g l)).
Proof.
  induction l as [|x l IH]; simpl; [trivial|].
  intros H. inversion H as [|? ? Hx Hl]; subst.
  destruct (g x); simpl; [|now apply IH].
  constructor; [|now apply IH].
  intros Hin. apply Hx. apply in_map_iff in Hin as (y & Hy & Hyin).
  apply in_map_iff. exists y. split; [assumption|].
  now apply filter_In in Hyin as [Hyin _].
Qed.

Lemma map_key_updated {A} (key : A -> Z) (i : Z) (x' : A) (l : list A) :
  key x' = i ->
  map key (map (fun y => if key y =? i then x' else y) l) = map key l.
Proof.
  intros Hx'. induction l as [|y l IH]; simpl; [reflexivity|].
  rewrite IH. destruct (key y =? i) eqn:E; [|reflexivity].
  apply Z.eqb_eq in E. now rewrite Hx', E.
Qed.

Lemma In_updated {A} (key : A -> Z) (i : Z) (x' : A) (l : list A) (z : A) :
  In z (map (fun y => if key y =? i then x' else y) l) ->
  z = x' \/ (In z l /\ key z <> i).
Proof.
  induction l as [|y l IH]; simpl; [contradiction|].
  intros [H|H].
  - destruct (key y =? i) eqn:E; [now left|].
    right. subst z. split; [now left | now apply Z.eqb_neq].
  - destruct (IH H) as [->|[Hin Hk]]; [now left | right; split; [now right | assumption]].
Qed.

Lemma updated_absent {A} (key : A -> Z) (i : Z) (x' : A) (l : list A) :
  ~ In i (map key l) ->
  map (fun y => if key y =? i then x' else y) l = l.
Proof.
  induction l as [|y l IH]; simpl; [reflexivity|].
  intros H. destruct (key y =? i) eqn:E.
  - apply Z.eqb_eq in E. exfalso. apply H. now left.
  - rewrite IH; [reflexivity|]. intros K. apply H. now right.
Qed.

Lemma NoDup_titles_updated (i : Z) (p' : BlogPost) (l : list BlogPost) :
  NoDup (map post_id l) ->
  NoDup (map title l) ->
  (forall q, In q l -> post_id q <> i -> title q <> title p') ->
  NoDup (map title (map (fun q => if post_id q =? i then p' else q) l)).
Proof.
  induction l as [|q l IH]; simpl; [constructor|].
  intros Hids Hts Hfree.
  inversion Hids as [|? ? Hq Hids']; inversion Hts as [|? ? Htq Hts']; subst.
  destruct (post_id q =? i) eqn:E.
  - apply Z.eqb_eq in E. rewrite <- E in *.
    rewrite (updated_absent post_id (post_id q) p' l Hq).
    constructor; [|assumption].
    intros Hin. apply in_map_iff in Hin as (z & Hz & Hzin).
    apply (Hfree z (or_intror Hzin)); [|assumption].
    intros K. apply Hq. rewrite <- K. now apply in_map.
  - apply Z.eqb_neq in E. constructor.
    + intros Hin. apply in_map_iff in Hin as (z & Hz & Hzin).
      apply In_updated in Hzin as [->|[Hzin _]].
      * apply (Hfree q (or_introl eq_refl) E). now symmetry.
      * apply Htq. apply in_map_iff. now exists z.
    + apply IH; try assumption. intros z Hz. apply Hfree. now right.
Qed.

Lemma find_in_some {A} (key : A -> Z) (l : list A) (x : A) :
  In x l -> find (fun y => key y =? key x) l <> None.
Proof.
  intros Hin K. apply (find_none _ _ K) in Hin. simpl in Hin.
  now rewrite Z.eqb_refl in Hin.
Qed.

Lemma find_app_some {A} (f : A -> bool) (l l' : list A) :
  find f l <> None -> find f (l ++ l') <> None.
Proof.
  induction l as [|y l IH]; simpl; [congruence|].
  destruct (f y); [discriminate | assumption].
Qed.

(** The key constraints survive every change. *)
Lemma Change_keys_unique (cu : option User) (s s' : Store) :
  Change cu s s' -> keys_unique s -> keys_unique s'.
Proof.
  intros C [Hu He Hp Ht Hc].
  destruct C; constructor; simpl; try assumption.
  - apply NoDup_map_snoc; [assumption | apply next_id_fresh].
  - apply NoDup_map_snoc; [assumption|]. simpl.
    intros Hin. apply in_map_iff in Hin as (v & Hv & Hvin). now apply (H v Hvin).
  - apply NoDup_map_snoc; [assumption | apply next_id_fresh].
  - apply NoDup_map_snoc; [assumption|]. simpl.
    intros Hin. apply in_map_iff in Hin as (q & Hq & Hqin). now apply (H2 q Hqin).
  - now rewrite map_key_updated.
  - now apply NoDup_titles_updated.
  - now apply NoDup_map_filter.
  - now apply NoDup_map_filter.
  - apply NoDup_map_snoc; [assumption | apply next_id_fresh].
  - now apply NoDup_map_filter.
Qed.

(** So do the references. *)
Lemma Change_references_resolve (cu : option User) (s s' : Store) :
  Change cu s s' -> references_resolve s -> references_resolve s'.
Proof.
  intros C [Hpa Hca Hcp].
  destruct C; [now constructor| | | | | |].
  - (* a user more *)
    constructor; unfold get_user, get_post in *; simpl.
    + intros q Hq. now apply find_app_some, Hpa.
    + intros c Hc. now apply find_app_some, Hca.
    + assumption.
  - (* a post more *)
    constructor; unfold get_user, get_post in *; simpl.
    + intros q Hq. apply in_app_iff in Hq as [Hq|[<-|[]]]; [now apply Hpa|].
      simpl. now apply (find_in_some user_id).
    + assumption.
    + intros c Hc. destruct (Hcp c Hc) as (i & Hi & Hf).
      exists i. split; [assumption | now apply find_app_some].
  - (* a post edited *)
    constructor; unfold get_user, get_post in *; simpl.
    + intros q Hq. apply In_updated in Hq as [->|[Hq _]]; [|now apply Hpa].
      simpl. apply Hpa. now apply (find_some _ _ H1).
    + assumption.
    + intros c Hc. destruct (Hcp c Hc) as (i & Hi & Hf).
      exists i. split; [assumption|].
      destruct (Z.eq_dec i (post_id p)) as [->|Hne].
      * erewrite find_updated; [discriminate | exact H1 | reflexivity].
      * now rewrite find_updated_other.
  - (* a post deleted *)
    constructor; unfold get_user, get_post in *; simpl.
    + intros q Hq. apply filter_In in Hq as [Hq _]. now apply Hpa.
    + assumption.
    + intros c Hc. destruct (Hcp c Hc) as (i & Hi & Hf).
      exists i. split; [assumption|].
      rewrite find_filter_other; [assumption|].
      intros K. subst i.
      assert (T : existsb (is_child p) (comments s) = true).
      { apply existsb_exists. exists c. split; [assumption|].
        unfold is_child. rewrite Hi. apply Z.eqb_refl. }
      congruence.
  - (* a comment more *)
    constructor; unfold get_user, get_post in *; simpl.
    + assumption.
    + intros c Hc. apply in_app_iff in Hc as [Hc|[<-|[]]]; [now apply Hca|].
      simpl. now apply (find_in_some user_id).
    + intros c Hc. apply in_app_iff in Hc as [Hc|[<-|[]]]; [now apply Hcp|].
      simpl. exists (post_id p). split; [reflexivity|]. now rewrite H1.
  - (* a comment deleted *)
    constructor; unfold get_user, get_post in *; simpl.
    + assumption.
    + intros d Hd. apply filter_In in Hd as [Hd _]. now apply Hca.
    + intros d Hd. apply filter_In in Hd as [Hd _]. now apply Hcp.
Qed.

(** X1.  Whatever the route, the method, the form and the caller, a
    request leaves primary keys, user emails and post titles without
    duplicates if it found them so. *)
Theorem serve_keeps_keys_unique (relay : Relay) (r : Route) (req : Request) (w : World) :
  keys_unique (db w) ->
  keys_unique (db (snd (run (serve relay r req) w))).
Proof.
  apply Change_keys_unique with (cu := current_user w), serve_change.
Qed.

(** X2.  No request leaves a dangling reference: if every post and
    comment had its author and every comment its parent post before, so
    it is after.  A post is only ever deleted when no comment is under
    it. *)
Theorem serve_keeps_references (relay : Relay) (r : Route) (req : Request) (w : World) :
  references_resolve (db w) ->
  references_resolve (db (snd (run (serve relay r req) w))).
Proof.
  apply Change_references_resolve with (cu := current_user w), serve_change.
Qed.

(** X3.  The posts table changes at the admin's requests only: for any
    other caller, no route, method or form alters it. *)
Theorem posts_change_only_for_admin (relay : Relay) (r : Route) (req : Request)
    (w : World) :
  is_admin w = false ->
  blog_posts (db (snd (run (serve relay r req) w))) = blog_posts (db w).
Proof.
  intros Ha.
  assert (N : forall a, current_user w = Some a -> user_id a = 1 -> False).
  { intros a Hcu Hid. unfold is_admin in Ha. rewrite Hcu in Ha.
    apply Z.eqb_neq in Ha. contradiction. }
  destruct (serve_change relay r req w); try reflexivity;
    exfalso; eapply N; eassumption.
Qed.

(** X4.  A caller who is not logged in can add a user and nothing else:
    posts and comments are as before after any request. *)
Theorem anonymous_writes_no_post_or_comment (relay : Relay) (r : Route) (req : Request)
    (w : World) :
  current_user w = None ->
  blog_posts (db (snd (run (serve relay r req) w))) = blog_posts (db w)
  /\ comments (db (snd (run (serve relay r req) w))) = comments (db w).
Proof.
  intros Hcu.
  destruct (serve_change relay r req w); try (split; reflexivity); congruence.
Qed.

(** X5.  No request updates or deletes a user: the users table after a
    request is the table before, with at most one row appended. *)
Theorem users_only_grow (relay : Relay) (r : Route) (req : Request) (w : World) :
  exists added,
    users (db (snd (run (serve relay r req) w))) = (users (db w) ++ added)%list
    /\ (List.length added <= 1)%nat.
Proof.
  destruct (serve_change relay r req w);
    try (exists []; split; [now rewrite app_nil_r | simpl; lia]).
  eexists. split; [reflexivity | simpl; lia].
Qed.

(** X6.  Comments come and go at their author's requests only.  With
    unique comment identifiers, a comment present before a request and
    absent after it, or absent before and present after, is a comment
    whose author is the caller. *)
Theorem comments_change_only_for_author (relay : Relay) (r : Route) (req : Request)
    (w : World) (c : Comment) :
  NoDup (map comment_id (comments (db w))) ->
  (In c (comments (db w)) <-> In c (comments (db (snd (run (serve relay r req) w)))))
  \/ authenticated_as (comment_author_id c) w.
Proof.
  intros Hnd.
  destruct (serve_change relay r req w) as [| | | | |u p t Hcu Hu Hp|u d Hcu Hd Ha];
    try (left; reflexivity).
  - (* a comment more *)
    destruct (Z.eq_dec (comment_author_id c) (user_id u)) as [E|E];
      [right; exists u; split; [assumption | now symmetry]|].
    left. simpl. rewrite in_app_iff. split; [now left|].
    intros [H|[<-|[]]]; [assumption|]. simpl in E. contradiction.
  - (* a comment less *)
    destruct (Z.eq_dec (comment_author_id c) (user_id u)) as [E|E];
      [right; exists u; split; [assumption | now symmetry]|].
    left. simpl. rewrite filter_In. split; [|now intros [H _]].
    intros H. split; [assumption|].
    apply negb_true_iff, Z.eqb_neq. intros K.
    destruct (get_comment_id _ _ _ Hd) as [_ Hdin].
    assert (c = d) by (apply (NoDup_map_inj comment_id (comments (db w))); assumption).
    subst c. congruence.
Qed.

(** ** Sessions *)

Lemma current_user_ext (w w' : World) :
  session_user_id w' = session_user_id w ->
  users (db w') = users (db w) ->
  current_user w' = current_user w.
Proof.
  unfold current_user, load_user, get_user. now intros -> ->.
Qed.

(** X7.  Logging out ends the session and touches nothing else; doing
    it again changes nothing more; and until someone logs in, the three
    admin routes answer 403 and an existing comment cannot be deleted. *)
Theorem logout_revokes_access (i : Z) (req : Request) (w : World) (c : Comment) :
  get_comment (comment_id c) (db w) = Some c ->
  let w1 := snd (run logout w) in
  run logout w = (redirect ep_get_all_posts, w1)
  /\ db w1 = db w
  /\ current_user w1 = None
  /\ run logout w1 = (redirect ep_get_all_posts, w1)
  /\ run (add_new_post req) w1 = (abort 403, w1)
  /\ run (edit_post i req) w1 = (abort 403, w1)
  /\ run (delete_post i) w1 = (abort 403, w1)
  /\ run (delete_comment (comment_id c) i) w1 = (abort 403, w1).
Proof.
  intros Hc. cbv zeta.
  assert (A : is_admin (snd (run logout w)) = false) by reflexivity.
  split; [reflexivity|]. split; [reflexivity|]. split; [reflexivity|].
  split; [reflexivity|].
  split; [unfold add_new_post; now rewrite run_admin_only, A|].
  split; [unfold edit_post; now rewrite run_admin_only, A|].
  split; [unfold delete_post; now rewrite run_admin_only, A|].
  unfold delete_comment, run at 1. rewrite only_commenter_gate.
  change (db (snd (run logout w))) with (db w). now rewrite Hc.
Qed.

(** ** Comments *)

Lemma find_next_id {A} (key : A -> Z) (l : list A) (x : A) :
  key x = next_id (map key l) ->
  find (fun y => key y =? key x) (l ++ [x]) = Some x.
Proof.
  intros Hx. apply find_app_last; [|apply Z.eqb_refl].
  destruct (find (fun y => key y =? key x) l) as [y|] eqn:F; [|reflexivity].
  apply find_some in F as [Hin Heq]. apply Z.eqb_eq in Heq.
  pose proof (next_id_above (map key l) (key y) (in_map key l y Hin)). lia.
Qed.

Lemma filter_next_id {A} (key : A -> Z) (l : list A) (x : A) :
  key x = next_id (map key l) ->
  filter (fun y => negb (key y =? key x)) (l ++ [x]) = l.
Proof.
  intros Hx. rewrite filter_app. simpl. rewrite Z.eqb_refl. simpl.
  rewrite app_nil_r.
  assert (K : forall y, In y l -> negb (key y =? key x) = true).
  { intros y Hy. apply negb_true_iff, Z.eqb_neq.
    pose proof (next_id_above (map key l) (key y) (in_map key l y Hy)). lia. }
  clear Hx. induction l as [|y l IH]; simpl; [reflexivity|].
  rewrite (K y (or_introl eq_refl)). f_equal. apply IH.
  intros z Hz. apply K. now right.
Qed.

(** A logged-in user's valid comment on an existing post. *)
Lemma show_post_comment_runs (i : Z) (req : Request) (w : World) (u : User)
    (p : BlogPost) :
  validate_on_submit CommentForm_validate req = true ->
  current_user w = Some u ->
  get_post i (db w) = Some p ->
  exists t,
    form_get "comment" (form req) = Some t
    /\ run (show_post i req) w
       = (render_template "post.html",
          set_db (mkStore (users (db w)) (blog_posts (db w))
                    (comments (db w)
                     ++ [mkComment (next_id (map comment_id (comments (db w)))) t
                           (user_id u) (Some i)])) w).
Proof.
  intros Hv Hcu G.
  destruct (validate_on_submit_true _ _ Hv) as [_ Hf].
  destruct (data_required_get _ _ Hf) as (t & Gt & _).
  exists t. split; [assumption|].
  destruct (get_post_id i (db w) p G) as [Hid _].
  unfold run, show_post, bind, get_or_404, get_world, commit, insert_comment, ret.
  now rewrite G, Hv, Hcu, Gt, Hid.
Qed.

(** X8.  A logged-in user's valid comment on an existing post is stored
    under a new identifier with that user as author and that post as
    parent, and is found by its identifier; when its author then deletes
    it, the tables are exactly as they were before the comment. *)
Theorem comment_then_delete (i j : Z) (req : Request) (w : World) (u : User)
    (p : BlogPost) :
  validate_on_submit CommentForm_validate req = true ->
  current_user w = Some u ->
  get_post i (db w) = Some p ->
  let w1 := snd (run (show_post i req) w) in
  exists c,
    comments (db w1) = (comments (db w) ++ [c])%list
    /\ get_comment (comment_id c) (db w1) = Some c
    /\ Some (text c) = form_get "comment" (form req)
    /\ comment_author_id c = user_id u
    /\ comment_post_id c = Some i
    /\ ~ In (comment_id c) (map comment_id (comments (db w)))
    /\ fst (run (delete_comment (comment_id c) j) w1) = redirect (ep_show_post j)
    /\ db (snd (run (delete_comment (comment_id c) j) w1)) = db w.
Proof.
  intros Hv Hcu G. cbv zeta.
  destruct (show_post_comment_runs i req w u p Hv Hcu G) as (t & Gt & ->).
  set (c := mkComment (next_id (map comment_id (comments (db w)))) t (user_id u) (Some i)).
  set (w1 := set_db (mkStore (users (db w)) (blog_posts (db w))
                       (comments (db w) ++ [c])) w).
  exists c. cbn [snd].
  assert (F : get_comment (comment_id c) (db w1) = Some c)
    by (exact (find_next_id comment_id (comments (db w)) c eq_refl)).
  split; [reflexivity|]. split; [exact F|]. split; [now rewrite Gt|].
  split; [reflexivity|]. split; [reflexivity|]. split; [apply next_id_fresh|].
  assert (A : is_author c w1 = true).
  { unfold is_author. rewrite (current_user_ext w w1 eq_refl eq_refl), Hcu.
    apply Z.eqb_refl. }
  unfold run, delete_comment. rewrite only_commenter_gate, F, A.
  rewrite (delete_comment_wrapped_runs (comment_id c) j c w1 F).
  cbn [fst snd]. split; [reflexivity|].
  unfold w1. cbn [db set_db users blog_posts comments].
  rewrite (filter_next_id comment_id (comments (db w)) c eq_refl).
  now destruct (db w).
Qed.

(** What repeated comment submissions leave behind. *)
Lemma served_comments (i : Z) (req : Request) (w : World) (u : User) (p : BlogPost)
    (n : nat) :
  validate_on_submit CommentForm_validate req = true ->
  current_user w = Some u ->
  get_post i (db w) = Some p ->
  let w' := served (show_post i req) n w in
  exists added,
    session_user_id w' = session_user_id w
    /\ users (db w') = users (db w)
    /\ blog_posts (db w') = blog_posts (db w)
    /\ comments (db w') = (comments (db w) ++ added)%list
    /\ List.length added = n
    /\ forall c, In c added ->
         comment_author_id c = user_id u /\ comment_post_id c = Some i
         /\ Some (text c) = form_get "comment" (form req).
Proof.
  intros Hv Hcu G. induction n as [|n IH]; simpl.
  - exists []. repeat split; try reflexivity; [now rewrite app_nil_r | contradiction..].
  - destruct IH as (added & Hs & Hus & Hps & Hcs & Hlen & Hall).
    set (wn := served (show_post i req) n w) in *.
    assert (Hcu' : current_user wn = Some u)
      by (rewrite (current_user_ext w wn Hs Hus); exact Hcu).
    assert (G' : get_post i (db wn) = Some p)
      by (unfold get_post; rewrite Hps; exact G).
    destruct (show_post_comment_runs i req wn u p Hv Hcu' G') as (t & Gt & ->).
    cbn [snd db set_db users blog_posts comments session_user_id].
    eexists (added ++ [_])%list. repeat split; try assumption.
    + rewrite Hcs. now rewrite <- app_assoc.
    + rewrite length_app. simpl. lia.
    + apply in_app_iff in H as [H|[<-|[]]]; [now apply Hall | reflexivity].
    + apply in_app_iff in H as [H|[<-|[]]]; [now apply Hall | reflexivity].
    + apply in_app_iff in H as [H|[<-|[]]]; [now apply Hall | simpl; now rewrite Gt].
Qed.

(** X9.  The comment form is not protected against resubmission: the
    same valid submission served [n] times by a logged-in user leaves
    [n] more comments, all with that author, parent and text. *)
Theorem resubmitted_comments_pile_up (i : Z) (req : Request) (w : World) (u : User)
    (p : BlogPost) (n : nat) :
  validate_on_submit CommentForm_validate req = true ->
  current_user w = Some u ->
  get_post i (db w) = Some p ->
  exists added,
    comments (db (served (show_post i req) n w)) = (comments (db w) ++ added)%list
    /\ List.length added = n
    /\ forall c, In c added ->
         comment_author_id c = user_id u /\ comment_post_id c = Some i
         /\ Some (text c) = form_get "comment" (form req).
Proof.
  intros Hv Hcu G.
  destruct (served_comments i req w u p n Hv Hcu G) as (added & _ & _ & _ & H1 & H2 & H3).
  now exists added.
Qed.

(** ** Accounts *)

Lemma register_runs (req : Request) (w : World) :
  validate_on_submit RegisterForm_validate req = true ->
  (forall u, In u (users (db w)) -> form_get "email" (form req) <> Some (user_email u)) ->
  exists name email password,
    form_get "name" (form req) = Some name
    /\ form_get "email" (form req) = Some email
    /\ form_get "password" (form req) = Some password
    /\ run (register req) w
       = (redirect ep_get_all_posts, registered w name email password).
Proof.
  intros Hv Hfresh.
  destruct (validate_on_submit_true _ _ Hv) as [_ Hf].
  unfold RegisterForm_validate in Hf.
  apply andb_prop in Hf as [Hf _]. apply andb_prop in Hf as [Hf Hpw].
  apply andb_prop in Hf as [Hf _]. apply andb_prop in Hf as [Hname Hemail].
  destruct (data_required_get _ _ Hname) as (name & Gn & _).
  destruct (data_required_get _ _ Hemail) as (email & Ge & _).
  destruct (data_required_get _ _ Hpw) as (password & Gp & _).
  exists name, email, password. repeat (split; [assumption|]).
  assert (Hnone : existsb (fun u => String.eqb (user_email u) email) (users (db w)) = false).
  { destruct (existsb _ _) eqn:E; [|reflexivity].
    apply existsb_exists in E as (u & Hin & He). apply String.eqb_eq in He.
    exfalso. apply (Hfresh u Hin). now rewrite Ge, He. }
  unfold run, register, bind, get_world, generate_password_hash, commit,
    insert_user, login_user, ret, registered.
  rewrite Hv, (select_user_by_email_none _ _ Hfresh), Gn, Ge, Gp. simpl.
  destruct (hash_internal "pbkdf2:sha256" (gen_salt (salts_drawn w) 8) password)
    as [h m] eqn:Eh.
  simpl. now rewrite Hnone.
Qed.

Lemma registered_current_user (w : World) (name email password : string) :
  exists u,
    current_user (registered w name email password) = Some u
    /\ user_id u = next_id (map user_id (users (db w)))
    /\ user_name u = name /\ user_email u = email.
Proof.
  set (salt := gen_salt (salts_drawn w) 8).
  set (h := hash_internal "pbkdf2:sha256" salt password).
  exists (mkUser (next_id (map user_id (users (db w)))) name email
            (snd h ++ "$" ++ salt ++ "$" ++ fst h)).
  split; [|repeat split].
  unfold current_user, load_user, registered. cbn [session_user_id db].
  exact (get_user_appended (users (db w))
           (mkUser (next_id (map user_id (users (db w)))) name email
              (snd h ++ "$" ++ salt ++ "$" ++ fst h))
           (blog_posts (db w)) (comments (db w)) eq_refl).
Qed.

(** X10.  Registering, logging out and logging in again with the same
    email and password: provided the hash primitive verifies what it
    generated, the login succeeds and restores exactly the world the
    registration left, with the new user as current user. *)
Theorem register_logout_login (req req' : Request) (w : World) :
  (forall salt password,
     check_password_hash
       (snd (hash_internal "pbkdf2:sha256" salt password) ++ "$" ++ salt ++ "$"
        ++ fst (hash_internal "pbkdf2:sha256" salt password))
       password = true) ->
  validate_on_submit RegisterForm_validate req = true ->
  (forall u, In u (users (db w)) -> form_get "email" (form req) <> Some (user_email u)) ->
  validate_on_submit LoginForm_validate req' = true ->
  form_get "email" (form req') = form_get "email" (form req) ->
  form_get "password" (form req') = form_get "password" (form req) ->
  let w1 := snd (run (register req) w) in
  let w2 := snd (run logout w1) in
  current_user w2 = None
  /\ run (login req') w2 = (redirect ep_get_all_posts, w1)
  /\ exists u, current_user w1 = Some u
               /\ Some (user_email u) = form_get "email" (form req).
Proof.
  intros Hverify Hv Hfresh Hv' He Hp. cbv zeta.
  destruct (register_runs req w Hv Hfresh) as (name & email & password & Gn & Ge & Gp & ->).
  cbn [snd]. split; [reflexivity|]. split.
  - change (snd (run logout (registered w name email password)))
      with (set_session None (registered w name email password)).
    unfold run, login, bind, get_world, check_password, login_user, ret.
    rewrite Hv', He, Hp, Ge, Gp.
    unfold select_user_by_email, registered. cbn [db set_session users].
    rewrite find_app_last.
    + cbn [user_password]. rewrite Hverify. reflexivity.
    + destruct (find _ (users (db w))) as [v|] eqn:F; [|reflexivity].
      apply find_some in F as [Hin Heq]. apply String.eqb_eq in Heq.
      exfalso. apply (Hfresh v Hin). now rewrite Ge, Heq.
    + apply String.eqb_refl.
  - destruct (registered_current_user w name email password) as (u & Hu & _ & _ & Hue).
    exists u. split; [assumption | now rewrite Ge, Hue].
Qed.

(** X11.  Who becomes the administrator: a valid registration into an
    empty users table makes the caller the admin (identifier 1); a valid
    registration with a new email into a table that holds a user with a
    positive identifier never does. *)
Theorem only_the_first_account_is_admin (req : Request) (w : World) :
  validate_on_submit RegisterForm_validate req = true ->
  (forall u, In u (users (db w)) -> form_get "email" (form req) <> Some (user_email u)) ->
  let w1 := snd (run (register req) w) in
  (users (db w) = [] -> is_admin w1 = true)
  /\ ((exists v, In v (users (db w)) /\ 1 <= user_id v) -> is_admin w1 = false).
Proof.
  intros Hv Hfresh. cbv zeta.
  destruct (register_runs req w Hv Hfresh) as (name & email & password & _ & _ & _ & ->).
  cbn [snd].
  destruct (registered_current_user w name email password) as (u & Hu & Hid & _).
  unfold is_admin. rewrite Hu, Hid. split.
  - intros ->. reflexivity.
  - intros (v & Hin & Hpos). apply Z.eqb_neq.
    pose proof (next_id_above (map user_id (users (db w))) (user_id v)
                  (in_map user_id _ v Hin)). lia.
Qed.

(** ** Deleted rows *)

(** X12.  Once the admin has deleted a post, it is gone for every
    route: its page, its edit form and a second deletion all answer 404
    and leave the world as it is.  (The identifier is one the database
    takes, as the identifier of every stored row is.) *)
Theorem deleted_post_is_gone (i : Z) (req : Request) (w : World) (p : BlogPost) :
  in_int64 i = true ->
  is_admin w = true ->
  get_post i (db w) = Some p ->
  existsb (is_child p) (comments (db w)) = false ->
  let w1 := snd (run (delete_post i) w) in
  fst (run (delete_post i) w) = redirect ep_get_all_posts
  /\ run (show_post i req) w1 = (abort 404, w1)
  /\ run (edit_post i req) w1 = (abort 404, w1)
  /\ run (delete_post i) w1 = (abort 404, w1).
Proof.
  intros Hi Ha G E. cbv zeta.
  set (w1 := set_db (mkStore (users (db w))
                       (filter (fun q => negb (post_id q =? i)) (blog_posts (db w)))
                       (comments (db w))) w).
  assert (R : run (delete_post i) w = (redirect ep_get_all_posts, w1)).
  { unfold delete_post.
    now rewrite run_admin_only, Ha, (delete_post_wrapped_runs i p w G), E. }
  rewrite R. cbn [fst snd].
  assert (G1 : get_post i (db w1) = None)
    by (unfold get_post, w1; simpl; apply find_filter_out).
  assert (A1 : is_admin w1 = true)
    by (unfold is_admin; rewrite (current_user_ext w w1 eq_refl eq_refl); exact Ha).
  split; [reflexivity|]. split; [|split].
  - unfold run, show_post, bind, get_or_404. now rewrite G1, (missing_in_range i Hi).
  - unfold edit_post. rewrite run_admin_only, A1.
    unfold run, edit_post_wrapped, bind, get_or_404.
    now rewrite G1, (missing_in_range i Hi).
  - unfold delete_post. rewrite run_admin_only, A1.
    unfold run, delete_post_wrapped, bind, get_or_404.
    now rewrite G1, (missing_in_range i Hi).
Qed.

(** X13.  Once its author has deleted a comment, a second deletion
    answers 404, for the author as for anyone, and leaves the world as
    it is.  (The identifier is one the database takes, as the identifier
    of every stored row is.) *)
Theorem deleted_comment_is_gone (c i j : Z) (w : World) (cm : Comment) :
  in_int64 c = true ->
  get_comment c (db w) = Some cm ->
  is_author cm w = true ->
  let w1 := snd (run (delete_comment c i) w) in
  fst (run (delete_comment c i) w) = redirect (ep_show_post i)
  /\ run (delete_comment c j) w1 = (abort 404, w1).
Proof.
  intros Hc G A. cbv zeta.
  set (w1 := set_db (mkStore (users (db w)) (blog_posts (db w))
                       (filter (fun d => negb (comment_id d =? c)) (comments (db w)))) w).
  assert (R : run (delete_comment c i) w = (redirect (ep_show_post i), w1)).
  { unfold run, delete_comment.
    now rewrite only_commenter_gate, G, A, (delete_comment_wrapped_runs c i cm w G). }
  rewrite R. cbn [fst snd]. split; [reflexivity|].
  assert (G1 : get_comment c (db w1) = None)
    by (unfold get_comment, w1; simpl; apply find_filter_out).
  unfold run, delete_comment.
  now rewrite only_commenter_gate, G1, (missing_in_range c Hc).
Qed.

(** ** Mail *)




(** ** Exceptions and sessions *)

Lemma select_user_by_email_fresh (e : option string) (s : Store) :
  select_user_by_email e s = None ->
  forall u, In u (users s) -> e <> Some (user_email u).
Proof.
  intros H u Hin ->. simpl in H. apply (find_none _ _ H) in Hin. simpl in Hin.
  now rewrite String.eqb_refl in Hin.
Qed.

Lemma register_response (req : Request) (w : World) :
  exists target, fst (run (register req) w) = redirect target
                 \/ fst (run (register req) w) = render_template "register.html".
Proof.
  destruct (validate_on_submit RegisterForm_validate req) eqn:Hv.
  - destruct (select_user_by_email (form_get "email" (form req)) (db w)) as [u|] eqn:S.
    + exists ep_login. left. unfold run, register, bind, get_world. now rewrite Hv, S.
    + exists ep_get_all_posts. left.
      destruct (register_runs req w Hv (select_user_by_email_fresh _ _ S))
        as (n & e & p & _ & _ & _ & ->).
      reflexivity.
  - exists ep_login. right. unfold run, register. now rewrite Hv.
Qed.

Lemma login_response (req : Request) (w : World) :
  exists target, fst (run (login req) w) = redirect target
                 \/ fst (run (login req) w) = render_template "login.html".
Proof.
  destruct (validate_on_submit LoginForm_validate req) eqn:Hv.
  - destruct (validate_on_submit_true _ _ Hv) as [_ Hf].
    unfold LoginForm_validate in Hf. apply andb_prop in Hf as [_ Hpw].
    destruct (data_required_get _ _ Hpw) as (password & Gp & _).
    unfold run, login, bind, get_world, check_password, login_user, ret.
    rewrite Hv, Gp.
    destruct (select_user_by_email _ (db w)) as [u|]; [|exists ep_login; now left].
    destruct (check_password_hash (user_password u) password); simpl;
      [exists ep_get_all_posts | exists ep_login]; now left.
  - exists ep_login. right. unfold run, login. now rewrite Hv.
Qed.

Lemma missing_raises (i : Z) (e : Exn) :
  missing i = unhandled e -> e = OverflowError /\ in_int64 i = false.
Proof.
  unfold missing. destruct (in_int64 i); [discriminate|].
  intros H. injection H as <-. now split.
Qed.

Lemma show_post_raises (i : Z) (req : Request) (w : World) (e : Exn) :
  fst (run (show_post i req) w) = unhandled e ->
  snd (run (show_post i req) w) = w /\ e = OverflowError /\ in_int64 i = false.
Proof.
  unfold run, show_post, bind, get_or_404, get_world.
  destruct (get_post i (db w)) as [p|].
  - destruct (validate_on_submit CommentForm_validate req) eqn:Hv; [|discriminate].
    destruct (validate_on_submit_true _ _ Hv) as [_ Hf].
    destruct (data_required_get _ _ Hf) as (t & Gt & _).
    destruct (current_user w) as [u|]; [|discriminate].
    unfold commit, insert_comment, ret. rewrite Gt. discriminate.
  - cbn [fst snd]. intros H. split; [reflexivity | now apply missing_raises].
Qed.

Lemma delete_comment_raises (c i : Z) (w : World) (e : Exn) :
  fst (run (delete_comment c i) w) = unhandled e ->
  snd (run (delete_comment c i) w) = w /\ e = OverflowError /\ in_int64 c = false.
Proof.
  unfold run, delete_comment. rewrite only_commenter_gate.
  destruct (get_comment c (db w)) as [cm|] eqn:G.
  - destruct (is_author cm w); [|discriminate].
    rewrite (delete_comment_wrapped_runs c i cm w G). discriminate.
  - cbn [fst snd]. intros H. split; [reflexivity | now apply missing_raises].
Qed.

Lemma contact_response (relay : Relay) (req : Request) (w : World) :
  fst (run (contact relay req) w) = render_template "contact.html".
Proof.
  now rewrite contact_runs.
Qed.

Lemma add_new_post_wrapped_raises (req : Request) (w : World) (e : Exn) :
  is_admin w = true ->
  fst (run (add_new_post_wrapped req) w) = unhandled e ->
  snd (run (add_new_post_wrapped req) w) = w /\ exists c, e = IntegrityError c.
Proof.
  intros Ha. destruct (is_admin_user w Ha) as (a & Hcu & _ & _).
  unfold run, add_new_post_wrapped, bind, get_world, commit, insert_post, ret.
  destruct (validate_on_submit CreatePostForm_validate req); [|discriminate].
  rewrite Hcu.
  destruct (form_get "title" (form req)); simpl;
    [|intros H; injection H as <-; split; [reflexivity | now eexists]].
  destruct (form_get "subtitle" (form req)); simpl;
    [|intros H; injection H as <-; split; [reflexivity | now eexists]].
  destruct (form_get "body" (form req)); simpl;
    [|intros H; injection H as <-; split; [reflexivity | now eexists]].
  destruct (form_get "img_url" (form req)); simpl;
    [|intros H; injection H as <-; split; [reflexivity | now eexists]].
  destruct (existsb _ (blog_posts (db w))); simpl; [|discriminate].
  intros H; injection H as <-; split; [reflexivity | now eexists].
Qed.

Lemma edit_post_wrapped_raises (i : Z) (req : Request) (w : World) (e : Exn) :
  fst (run (edit_post_wrapped (i, req)) w) = unhandled e ->
  snd (run (edit_post_wrapped (i, req)) w) = w
  /\ ((exists c, e = IntegrityError c) \/ (e = OverflowError /\ in_int64 i = false)).
Proof.
  unfold run, edit_post_wrapped, bind, get_or_404, commit, update_post, ret.
  destruct (get_post i (db w)) as [p|];
    [|cbn [fst snd]; intros H; split; [reflexivity | right; now apply missing_raises]].
  destruct (validate_on_submit CreatePostForm_validate req); [|discriminate].
  destruct (form_get "title" (form req)); simpl;
    [|intros H; injection H as <-; split; [reflexivity | left; now eexists]].
  destruct (form_get "subtitle" (form req)); simpl;
    [|intros H; injection H as <-; split; [reflexivity | left; now eexists]].
  destruct (form_get "img_url" (form req)); simpl;
    [|intros H; injection H as <-; split; [reflexivity | left; now eexists]].
  destruct (form_get "body" (form req)); simpl;
    [|intros H; injection H as <-; split; [reflexivity | left; now eexists]].
  destruct (existsb _ (blog_posts (db w))); simpl; [|discriminate].
  intros H; injection H as <-; split; [reflexivity | left; now eexists].
Qed.

Lemma delete_post_wrapped_raises (i : Z) (w : World) (e : Exn) :
  fst (run (delete_post_wrapped i) w) = unhandled e ->
  snd (run (delete_post_wrapped i) w) = w
  /\ ((exists c, e = IntegrityError c) \/ (e = OverflowError /\ in_int64 i = false)).
Proof.
  destruct (get_post i (db w)) as [p|] eqn:G.
  - rewrite (delete_post_wrapped_runs i p w G).
    destruct (existsb (is_child p) (comments (db w))); simpl; [|discriminate].
    intros H; injection H as <-; split; [reflexivity | left; now eexists].
  - unfold run, delete_post_wrapped, bind, get_or_404. rewrite G. cbn [fst snd].
    intros H. split; [reflexivity | right; now apply missing_raises].
Qed.

(** X15.  An unhandled exception leaves no trace: when a request ends
    in one, database, session and flashed messages are exactly as
    before.  There are two kinds only: the IntegrityError of a commit,
    which the admin alone can cause, and the driver's OverflowError on a
    route whose identifier does not fit in 64 bits, which any caller
    can. *)
Theorem unhandled_leaves_no_trace (relay : Relay) (r : Route) (req : Request)
    (w : World) (e : Exn) :
  fst (run (serve relay r req) w) = unhandled e ->
  snd (run (serve relay r req) w) = w
  /\ ((is_admin w = true /\ exists c, e = IntegrityError c)
      \/ (e = OverflowError
          /\ exists i, in_int64 i = false
                       /\ (r = route_show_post i \/ r = route_edit_post i
                           \/ r = route_delete_post i
                           \/ exists j, r = route_delete_comment i j))).
Proof.
  unfold serve. destruct (allows r (method req)); [|discriminate].
  destruct r.
  - discriminate.
  - intros H. destruct (show_post_raises post_id' req w e H) as (K1 & K2 & K3).
    split; [assumption|]. right. split; [assumption|].
    exists post_id'. split; [assumption | now left].
  - intros H. destruct (register_response req w) as (t & [K|K]); congruence.
  - intros H. destruct (login_response req w) as (t & [K|K]); congruence.
  - discriminate.
  - unfold add_new_post. rewrite run_admin_only.
    destruct (is_admin w) eqn:Ha; [|discriminate].
    intros H. destruct (add_new_post_wrapped_raises req w e Ha H) as [K1 K2].
    split; [assumption | left; now split].
  - unfold edit_post. rewrite run_admin_only.
    destruct (is_admin w) eqn:Ha; [|discriminate].
    intros H. destruct (edit_post_wrapped_raises post_id' req w e H) as [K1 [K2|[K2 K3]]].
    + split; [assumption | left; now split].
    + split; [assumption|]. right. split; [assumption|].
      exists post_id'. split; [assumption | right; now left].
  - unfold delete_post. rewrite run_admin_only.
    destruct (is_admin w) eqn:Ha; [|discriminate].
    intros H. destruct (delete_post_wrapped_raises post_id' w e H) as [K1 [K2|[K2 K3]]].
    + split; [assumption | left; now split].
    + split; [assumption|]. right. split; [assumption|].
      exists post_id'. split; [assumption | right; right; now left].
  - intros H. destruct (delete_comment_raises comment_id' post_id' w e H) as (K1 & K2 & K3).
    split; [assumption|]. right. split; [assumption|].
    exists comment_id'. split; [assumption|]. right; right; right. now exists post_id'.
  - discriminate.
  - rewrite contact_response. discriminate.
Qed.

(** The session is touched by [login_user] and [logout_user] only:
    everything else a view function is built from keeps it. *)
Lemma keeps_ret {A} (a : A) : keeps_session (ret a).
Proof. intros w. reflexivity. Qed.

Lemma keeps_stop {A} (r : Response) : keeps_session (@stop A r).
Proof. intros w. reflexivity. Qed.

Lemma keeps_get_world : keeps_session get_world.
Proof. intros w. reflexivity. Qed.

Lemma keeps_flash (m c : string) : keeps_session (flash m c).
Proof. intros w. reflexivity. Qed.

Lemma keeps_get_or_404 {A} (lookup : Z -> Store -> option A) (i : Z) :
  keeps_session (get_or_404 lookup i).
Proof. intros w. unfold get_or_404. destruct (lookup i (db w)); reflexivity. Qed.

Lemma keeps_commit {A} (flush : Store -> Exn + (A * Store)) : keeps_session (commit flush).
Proof. intros w. unfold commit. destruct (flush (db w)) as [e|[a s]]; reflexivity. Qed.

Lemma keeps_bind {A B} (m : M A) (k : A -> M B) :
  keeps_session m -> (forall a, keeps_session (k a)) -> keeps_session (bind m k).
Proof.
  intros Hm Hk w. unfold bind. specialize (Hm w).
  destruct (m w) as [[a|r] w1]; simpl in *; [|assumption].
  now rewrite Hk.
Qed.

Lemma keeps_admin_only {A} (f : A -> M Response) (args : A) :
  keeps_session (f args) -> keeps_session (admin_only f args).
Proof.
  intros Hf w. rewrite admin_only_gate. destruct (is_admin w); [apply Hf | reflexivity].
Qed.

Lemma keeps_only_commenter {A} (f : Z -> A -> M Response) (c : Z) (args : A) :
  keeps_session (f c args) -> keeps_session (only_commenter f c args).
Proof.
  intros Hf w. rewrite only_commenter_gate.
  destruct (get_comment c (db w)) as [cm|]; [|reflexivity].
  destruct (is_author cm w); [apply Hf | reflexivity].
Qed.

Create HintDb session.
#[local] Hint Resolve keeps_ret keeps_stop keeps_get_world keeps_flash keeps_get_or_404
  keeps_commit : session.

Ltac session_steps :=
  repeat first
    [ match goal with
      | |- forall _, _ => intro
      | |- keeps_session (if ?b then _ else _) => destruct b
      | |- keeps_session (match ?x with _ => _ end) => destruct x
      end
    | solve [auto with session]
    | apply keeps_bind ].

Lemma show_post_keeps_session (i : Z) (req : Request) : keeps_session (show_post i req).
Proof. unfold show_post. session_steps. Qed.

Lemma add_new_post_keeps_session (req : Request) : keeps_session (add_new_post req).
Proof.
  apply keeps_admin_only. unfold add_new_post_wrapped, raise. session_steps.
Qed.

Lemma edit_post_keeps_session (i : Z) (req : Request) : keeps_session (edit_post i req).
Proof.
  apply keeps_admin_only. unfold edit_post_wrapped. session_steps.
Qed.

Lemma delete_post_keeps_session (i : Z) : keeps_session (delete_post i).
Proof.
  apply keeps_admin_only. unfold delete_post_wrapped. session_steps.
Qed.

Lemma delete_comment_keeps_session (c i : Z) : keeps_session (delete_comment c i).
Proof.
  apply keeps_only_commenter. unfold delete_comment_wrapped. session_steps.
Qed.

Lemma run_world (h : M Response) (w : World) : snd (run h w) = snd (h w).
Proof. unfold run. destruct (h w) as [[r|r] w']; reflexivity. Qed.

Lemma contact_keeps_session (relay : Relay) (req : Request) :
  keeps_session (contact relay req).
Proof.
  intros w. rewrite <- run_world, contact_runs.
  destruct (method req); reflexivity.
Qed.

Lemma Change_get_user (cu : option User) (s s' : Store) (i : Z) :
  Change cu s s' -> get_user i s <> None -> get_user i s' <> None.
Proof.
  intros C. destruct C; try (intros K; exact K).
  unfold get_user. simpl. apply find_app_some.
Qed.

(** What a request can do to the session: keep it, clear it, or bind
    it to a row of the users table. *)
Lemma serve_session (relay : Relay) (r : Route) (req : Request) (w : World) :
  let w' := snd (run (serve relay r req) w) in
  session_user_id w' = session_user_id w
  \/ session_user_id w' = None
  \/ exists i, session_user_id w' = Some i /\ get_user i (db w') <> None.
Proof.
  cbv zeta. unfold serve. destruct (allows r (method req)); [|now left].
  destruct r; try (left; reflexivity).
  - left. rewrite run_world. apply show_post_keeps_session.
  - (* register *)
    destruct (validate_on_submit RegisterForm_validate req) eqn:Hv;
      [|left; unfold run, register; now rewrite Hv].
    destruct (select_user_by_email (form_get "email" (form req)) (db w)) as [u|] eqn:S.
    + left. unfold run, register, bind, get_world. now rewrite Hv, S.
    + right. right.
      destruct (register_runs req w Hv (select_user_by_email_fresh _ _ S))
        as (n & e & p & _ & _ & _ & ->).
      cbn [snd].
      destruct (registered_current_user w n e p) as (u & Hu & _).
      destruct (current_user_row _ _ Hu) as [Hin Hs].
      exists (user_id u). split; [assumption|].
      now apply (find_in_some user_id).
  - (* login *)
    unfold run, login, bind, get_world, check_password, login_user, raise, stop, ret.
    destruct (validate_on_submit LoginForm_validate req); [|now left].
    destruct (select_user_by_email _ (db w)) as [u|] eqn:S; [|now left].
    destruct (form_get "password" (form req)) as [pw|]; [|now left].
    destruct (check_password_hash (user_password u) pw); simpl; [|now left].
    right. right. exists (user_id u). split; [reflexivity|].
    destruct (form_get "email" (form req)) as [e|]; [|discriminate].
    simpl in S. apply find_some in S as [Hin _].
    now apply (find_in_some user_id).
  - right. now left.
  - left. rewrite run_world. apply add_new_post_keeps_session.
  - left. rewrite run_world. apply edit_post_keeps_session.
  - left. rewrite run_world. apply delete_post_keeps_session.
  - left. rewrite run_world. apply delete_comment_keeps_session.
  - left. rewrite run_world. apply contact_keeps_session.
Qed.

(** X16.  A session never points at a missing account: if the session
    of a request names a row of the users table, or nobody, so does the
    session after it, whatever the request. *)
Theorem session_always_resolves (relay : Relay) (r : Route) (req : Request) (w : World) :
  session_resolves w ->
  session_resolves (snd (run (serve relay r req) w)).
Proof.
  intros Hw i Hi.
  destruct (serve_session relay r req w) as [H|[H|(j & Hj & Hu)]].
  - apply (Change_get_user (current_user w) (db w)); [apply serve_change|].
    apply Hw. now rewrite <- H.
  - congruence.
  - congruence.
Qed.

(** X17.  Outside login, registration and logout, no request changes
    who is logged in. *)
Theorem session_changes_only_at_the_door (relay : Relay) (r : Route) (req : Request)
    (w : World) :
  r <> route_login -> r <> route_register -> r <> route_logout ->
  session_user_id (snd (run (serve relay r req) w)) = session_user_id w.
Proof.
  intros H1 H2 H3. unfold serve. destruct (allows r (method req)); [|reflexivity].
  destruct r; try contradiction; try reflexivity; rewrite run_world.
  - apply show_post_keeps_session.
  - apply add_new_post_keeps_session.
  - apply edit_post_keeps_session.
  - apply delete_post_keeps_session.
  - apply delete_comment_keeps_session.
  - apply contact_keeps_session.
Qed.

End Blog.

(** ** The theorems at work on the small blog *)

(** A visitor comments on post 1 without logging in. *)
Lemma anonymous_comment_not_persisted_witness :
  run (show_post 1 comment_request) (world_as None)
  = (redirect ep_login,
     mkWorld blog None [("message", "You need to login or register to comment.")]
       0 (mkDate 2025 3 11) [])
  /\ db (snd (run (show_post 1 comment_request) (world_as None))) = blog.
Proof.
  exact (anonymous_comment_not_persisted 1 comment_request (world_as None)
           eq_refl eq_refl).
Defined.

(** Bob registers again, three times over. *)
Lemma register_existing_email_witness :
  let register' :=
    register plain_well_formed 8 plain_gen_salt plain_hash_internal
      register_again_request in
  let w' := served register' 3 (world_as None) in
  db w' = blog
  /\ salts_drawn w' = 0%nat
  /\ session_user_id w' = None
  /\ run register' w'
     = (redirect ep_login,
        with_flash "User already exists, please log in." "message" w')
  /\ flashes w'
     = [("message", "User already exists, please log in.");
        ("message", "User already exists, please log in.");
        ("message", "User already exists, please log in.")]
  /\ flashes (snd (run register' w'))
     = (flashes w' ++ [("message", "User already exists, please log in.")])%list.
Proof.
  exact (register_existing_email plain_well_formed 8 plain_gen_salt plain_hash_internal
           register_again_request (world_as None) bob 3
           eq_refl (or_intror (or_introl eq_refl)) eq_refl).
Defined.

Lemma cy_email_is_new (u : User) :
  In u (users blog) -> Some "cy@example.com" <> Some (user_email u).
Proof.
  intros [<-|[<-|[]]]; discriminate.
Defined.

(** Cy registers. *)
Lemma register_fresh_email_witness :
  let register' :=
    register plain_well_formed 8 plain_gen_salt plain_hash_internal register_request in
  let w := world_as None in
  exists name email password,
    form_get "name" (form register_request) = Some name
    /\ form_get "email" (form register_request) = Some email
    /\ form_get "password" (form register_request) = Some password
    /\ let salt := plain_gen_salt (salts_drawn w) 8 in
       let digest := fst (plain_hash_internal "pbkdf2:sha256" salt password) in
       let actual_method := snd (plain_hash_internal "pbkdf2:sha256" salt password) in
       let new_user := mkUser (next_id (map user_id (users (db w)))) name email
                         (actual_method ++ "$" ++ salt ++ "$" ++ digest) in
       let w' := snd (run register' w) in
       fst (run register' w) = redirect ep_get_all_posts
       /\ db w' = mkStore (users (db w) ++ [new_user]) (blog_posts (db w)) (comments (db w))
       /\ session_user_id w' = Some (user_id new_user)
       /\ current_user w' = Some new_user
       /\ salts_drawn w' = S (salts_drawn w)
       /\ flashes w' = flashes w
       /\ (occurs "$" password = false -> user_password new_user <> password).
Proof.
  exact (register_fresh_email plain_well_formed 8 plain_gen_salt plain_hash_internal
           register_request (world_as None) eq_refl cy_email_is_new).
Defined.

Lemma blog_emails_unique : NoDup (map user_email (users blog)).
Proof.
  simpl. constructor.
  - intros [H|[]]. discriminate H.
  - constructor; [intros [] | constructor].
Defined.

(** Bob logs in. *)
Lemma login_succeeds_iff_witness :
  let w := world_as None in
  let login' := login plain_check_password_hash login_request in
  exists email password,
    form_get "email" (form login_request) = Some email
    /\ form_get "password" (form login_request) = Some password
    /\ (credentials_match plain_check_password_hash email password (db w)
        <-> exists u, In u (users (db w)) /\ user_email u = email
                      /\ run login' w
                         = (redirect ep_get_all_posts,
                            mkWorld (db w) (Some (user_id u)) (flashes w)
                              (salts_drawn w) (today w) (outbox w)))
    /\ ((forall u, In u (users (db w)) -> user_email u <> email) ->
        run login' w
        = (redirect ep_login,
           mkWorld (db w) (session_user_id w)
             (flashes w ++ [("message", "That email does not exist. Please try again.")])
             (salts_drawn w) (today w) (outbox w)))
    /\ ((exists u, In u (users (db w)) /\ user_email u = email) ->
        ~ credentials_match plain_check_password_hash email password (db w) ->
        run login' w
        = (redirect ep_login,
           mkWorld (db w) (session_user_id w)
             (flashes w ++ [("message", "Invalid password. Please try again.")])
             (salts_drawn w) (today w) (outbox w))).
Proof.
  exact (login_succeeds_iff plain_check_password_hash login_request (world_as None)
           eq_refl blog_emails_unique).
Defined.

(** Ada edits post 1. *)
Lemma edit_post_frame_witness :
  let w := world_as (Some 1) in
  exists t st im b,
    form_get "title" (form edit_request) = Some t
    /\ form_get "subtitle" (form edit_request) = Some st
    /\ form_get "img_url" (form edit_request) = Some im
    /\ form_get "body" (form edit_request) = Some b
    /\ let w' := snd (run (edit_post 1 edit_request) w) in
       users (db w') = users (db w)
       /\ comments (db w') = comments (db w)
       /\ (forall j, j <> 1 -> get_post j (db w') = get_post j (db w))
       /\ (exists p', get_post 1 (db w') = Some p'
                      /\ date p' = date post1
                      /\ post_author_id p' = post_author_id post1)
       /\ ((forall q, In q (blog_posts (db w)) -> post_id q <> 1 -> title q <> t) ->
           fst (run (edit_post 1 edit_request) w) = redirect (ep_show_post 1)
           /\ get_post 1 (db w')
              = Some (mkBlogPost 1 t st (date post1) b im (post_author_id post1)))
       /\ (forall req', validate_on_submit CreatePostForm_validate req' = true ->
             (forall q, In q (blog_posts (db w)) ->
                        form_get "title" (form req') <> Some (title q)) ->
             exists created,
               blog_posts (db (snd (run (add_new_post req') w)))
               = (blog_posts (db w) ++ [created])%list
               /\ date created = strftime_B_d_Y (today w)).
Proof.
  exact (edit_post_frame 1 edit_request (world_as (Some 1)) post1
           eq_refl eq_refl eq_refl).
Defined.

(** ** The site-wide properties on the small blog *)

Lemma blog_keys_unique : keys_unique blog.
Proof.
  constructor; simpl;
    repeat (constructor; [simpl; intuition discriminate|]); constructor.
Qed.

Lemma blog_references_resolve : references_resolve blog.
Proof.
  constructor.
  - intros p [<-|[<-|[]]]; discriminate.
  - intros c [<-|[]]. discriminate.
  - intros c [<-|[]]. exists 1. split; [reflexivity | discriminate].
Qed.

Lemma bob_session_resolves : session_resolves (world_as (Some 2)).
Proof.
  intros i H. injection H as <-. discriminate.
Qed.

Lemma has_suffix_cons (c : ascii) (s suffix : string) :
  has_suffix s suffix = true -> has_suffix (String c s) suffix = true.
Proof.
  intros H. cbn [has_suffix]. rewrite H. apply orb_true_r.
Qed.

Lemma has_suffix_app (a b : string) : has_suffix (a ++ b) b = true.
Proof.
  induction a as [|c a IH].
  - destruct b; simpl; [reflexivity|].
    now rewrite Ascii.eqb_refl, String.eqb_refl.
  - now apply has_suffix_cons.
Qed.

Lemma dash_primitives_agree (salt password : string) :
  dash_check_password_hash
    (snd (dash_hash_internal "pbkdf2:sha256" salt password) ++ "$" ++ salt ++ "$"
     ++ fst (dash_hash_internal "pbkdf2:sha256" salt password))
    password = true.
Proof.
  unfold dash_check_password_hash, dash_hash_internal. cbn [fst snd].
  change ("$" ++ "-" ++ password) with ("$-" ++ password).
  change (("pbkdf2:sha256" ++ ":1") ++ "$" ++ salt ++ "$-" ++ password)
    with ("pbkdf2:sha256:1$" ++ salt ++ "$-" ++ password).
  cbn [append]. repeat apply has_suffix_cons. apply has_suffix_app.
Qed.

(** Ada edits post 1. *)
Lemma serve_keeps_keys_unique_witness :
  keys_unique
    (db (snd (run (serve plain_well_formed 8 plain_gen_salt plain_hash_internal
                     plain_check_password_hash None None plain_codec_error willing_relay
                     (route_edit_post 1) edit_request)
                (world_as (Some 1))))).
Proof.
  exact (serve_keeps_keys_unique plain_well_formed 8 plain_gen_salt plain_hash_internal
           plain_check_password_hash None None plain_codec_error willing_relay
           (route_edit_post 1) edit_request (world_as (Some 1)) blog_keys_unique).
Defined.

(** Ada asks to delete post 1, which has a comment. *)
Lemma serve_keeps_references_witness :
  references_resolve
    (db (snd (run (serve plain_well_formed 8 plain_gen_salt plain_hash_internal
                     plain_check_password_hash None None plain_codec_error willing_relay
                     (route_delete_post 1) edit_request)
                (world_as (Some 1))))).
Proof.
  exact (serve_keeps_references plain_well_formed 8 plain_gen_salt plain_hash_internal
           plain_check_password_hash None None plain_codec_error willing_relay
           (route_delete_post 1) edit_request (world_as (Some 1))
           blog_references_resolve).
Defined.

(** Bob sends the edit form for post 1. *)
Lemma posts_change_only_for_admin_witness :
  blog_posts
    (db (snd (run (serve plain_well_formed 8 plain_gen_salt plain_hash_internal
                     plain_check_password_hash None None plain_codec_error willing_relay
                     (route_edit_post 1) edit_request)
                (world_as (Some 2)))))
  = [post1; post2].
Proof.
  exact (posts_change_only_for_admin plain_well_formed 8 plain_gen_salt
           plain_hash_internal plain_check_password_hash None None plain_codec_error willing_relay
           (route_edit_post 1) edit_request (world_as (Some 2)) eq_refl).
Defined.

(** A visitor sends a comment. *)
Lemma anonymous_writes_no_post_or_comment_witness :
  let w' := snd (run (serve plain_well_formed 8 plain_gen_salt plain_hash_internal
                        plain_check_password_hash None None plain_codec_error willing_relay
                        (route_show_post 1) comment_request)
                   (world_as None)) in
  blog_posts (db w') = [post1; post2] /\ comments (db w') = [comment5].
Proof.
  exact (anonymous_writes_no_post_or_comment plain_well_formed 8 plain_gen_salt
           plain_hash_internal plain_check_password_hash None None plain_codec_error willing_relay
           (route_show_post 1) comment_request (world_as None) eq_refl).
Defined.

(** Ada asks to delete Bob's comment. *)
Lemma comments_change_only_for_author_witness :
  let w := world_as (Some 1) in
  let w' := snd (run (serve plain_well_formed 8 plain_gen_salt plain_hash_internal
                        plain_check_password_hash None None plain_codec_error willing_relay
                        (route_delete_comment 5 1) comment_request) w) in
  (In comment5 (comments (db w)) <-> In comment5 (comments (db w')))
  \/ authenticated_as (comment_author_id comment5) w.
Proof.
  exact (comments_change_only_for_author plain_well_formed 8 plain_gen_salt
           plain_hash_internal plain_check_password_hash None None plain_codec_error willing_relay
           (route_delete_comment 5 1) comment_request (world_as (Some 1)) comment5
           (unique_comment_ids blog blog_keys_unique)).
Defined.

(** Ada logs out. *)
Lemma logout_revokes_access_witness :
  let w1 := snd (run logout (world_as (Some 1))) in
  run logout (world_as (Some 1)) = (redirect ep_get_all_posts, w1)
  /\ db w1 = blog
  /\ current_user w1 = None
  /\ run logout w1 = (redirect ep_get_all_posts, w1)
  /\ run (add_new_post edit_request) w1 = (abort 403, w1)
  /\ run (edit_post 1 edit_request) w1 = (abort 403, w1)
  /\ run (delete_post 1) w1 = (abort 403, w1)
  /\ run (delete_comment 5 1) w1 = (abort 403, w1).
Proof.
  exact (logout_revokes_access 1 edit_request (world_as (Some 1)) comment5 eq_refl).
Defined.

(** Bob comments on post 1 and thinks better of it. *)
Lemma comment_then_delete_witness :
  let w := world_as (Some 2) in
  let w1 := snd (run (show_post 1 comment_request) w) in
  exists c,
    comments (db w1) = (comments (db w) ++ [c])%list
    /\ get_comment (comment_id c) (db w1) = Some c
    /\ Some (text c) = form_get "comment" (form comment_request)
    /\ comment_author_id c = user_id bob
    /\ comment_post_id c = Some 1
    /\ ~ In (comment_id c) (map comment_id (comments (db w)))
    /\ fst (run (delete_comment (comment_id c) 1) w1) = redirect (ep_show_post 1)
    /\ db (snd (run (delete_comment (comment_id c) 1) w1)) = db w.
Proof.
  exact (comment_then_delete 1 1 comment_request (world_as (Some 2)) bob post1
           eq_refl eq_refl eq_refl).
Defined.

(** Bob's browser sends the same comment three times. *)
Lemma resubmitted_comments_pile_up_witness :
  exists added,
    comments (db (served (show_post 1 comment_request) 3 (world_as (Some 2))))
    = (comments (db (world_as (Some 2))) ++ added)%list
    /\ List.length added = 3%nat
    /\ forall c, In c added ->
         comment_author_id c = user_id bob /\ comment_post_id c = Some 1
         /\ Some (text c) = form_get "comment" (form comment_request).
Proof.
  exact (resubmitted_comments_pile_up 1 comment_request (world_as (Some 2)) bob post1 3
           eq_refl eq_refl eq_refl).
Defined.

(** Cy registers, logs out and logs in again. *)
Lemma register_logout_login_witness :
  let register' :=
    register plain_well_formed 8 plain_gen_salt dash_hash_internal register_request in
  let login' :=
    login dash_check_password_hash
      (mkRequest POST [("email", "cy@example.com"); ("password", "hunter2hunter2")]) in
  let w1 := snd (run register' (world_as None)) in
  let w2 := snd (run logout w1) in
  current_user w2 = None
  /\ run login' w2 = (redirect ep_get_all_posts, w1)
  /\ exists u, current_user w1 = Some u
               /\ Some (user_email u) = form_get "email" (form register_request).
Proof.
  exact (register_logout_login plain_well_formed 8 plain_gen_salt dash_hash_internal
           dash_check_password_hash register_request
           (mkRequest POST [("email", "cy@example.com"); ("password", "hunter2hunter2")])
           (world_as None) dash_primitives_agree eq_refl cy_email_is_new
           eq_refl eq_refl eq_refl).
Defined.

Lemma nobody_yet (u : User) :
  In u (users (db empty_world)) ->
  form_get "email" (form register_request) <> Some (user_email u).
Proof.
  intros [].
Defined.

(** Cy registers on the empty site, and on the blog. *)
Lemma only_the_first_account_is_admin_witness :
  let register' :=
    register plain_well_formed 8 plain_gen_salt plain_hash_internal register_request in
  ((users (db empty_world) = [] ->
    is_admin (snd (run register' empty_world)) = true)
   /\ ((exists v, In v (users (db empty_world)) /\ 1 <= user_id v) ->
       is_admin (snd (run register' empty_world)) = false))
  /\ ((users (db (world_as None)) = [] ->
       is_admin (snd (run register' (world_as None))) = true)
      /\ ((exists v, In v (users (db (world_as None))) /\ 1 <= user_id v) ->
          is_admin (snd (run register' (world_as None))) = false)).
Proof.
  split.
  - exact (only_the_first_account_is_admin plain_well_formed 8 plain_gen_salt
             plain_hash_internal register_request empty_world eq_refl nobody_yet).
  - exact (only_the_first_account_is_admin plain_well_formed 8 plain_gen_salt
             plain_hash_internal register_request (world_as None) eq_refl
             cy_email_is_new).
Defined.

(** Ada deletes post 2. *)
Lemma deleted_post_is_gone_witness :
  let w1 := snd (run (delete_post 2) (world_as (Some 1))) in
  fst (run (delete_post 2) (world_as (Some 1))) = redirect ep_get_all_posts
  /\ run (show_post 2 comment_request) w1 = (abort 404, w1)
  /\ run (edit_post 2 comment_request) w1 = (abort 404, w1)
  /\ run (delete_post 2) w1 = (abort 404, w1).
Proof.
  exact (deleted_post_is_gone 2 comment_request (world_as (Some 1)) post2
           eq_refl eq_refl eq_refl eq_refl).
Defined.

(** Bob deletes his comment, twice. *)
Lemma deleted_comment_is_gone_witness :
  let w1 := snd (run (delete_comment 5 1) (world_as (Some 2))) in
  fst (run (delete_comment 5 1) (world_as (Some 2))) = redirect (ep_show_post 1)
  /\ run (delete_comment 5 1) w1 = (abort 404, w1).
Proof.
  exact (deleted_comment_is_gone 5 1 1 (world_as (Some 2)) comment5
           eq_refl eq_refl eq_refl).
Defined.

(** A visitor asks for the post numbered 2^63. *)
Lemma unhandled_leaves_no_trace_witness :
  let w := world_as None in
  let r := route_show_post (2 ^ 63) in
  snd (run (serve plain_well_formed 8 plain_gen_salt plain_hash_internal
              plain_check_password_hash None None plain_codec_error willing_relay
              r comment_request) w) = w
  /\ ((is_admin w = true /\ exists c, OverflowError = IntegrityError c)
      \/ (OverflowError = OverflowError
          /\ exists i, in_int64 i = false
                       /\ (r = route_show_post i \/ r = route_edit_post i
                           \/ r = route_delete_post i
                           \/ exists j, r = route_delete_comment i j))).
Proof.
  exact (unhandled_leaves_no_trace plain_well_formed 8 plain_gen_salt plain_hash_internal
           plain_check_password_hash None None plain_codec_error willing_relay
           (route_show_post (2 ^ 63)) comment_request (world_as None)
           OverflowError eq_refl).
Defined.

(** Bob logs in again as himself. *)
Lemma session_always_resolves_witness :
  session_resolves
    (snd (run (serve plain_well_formed 8 plain_gen_salt plain_hash_internal
                 plain_check_password_hash None None plain_codec_error willing_relay
                 route_login login_request)
            (world_as (Some 2)))).
Proof.
  exact (session_always_resolves plain_well_formed 8 plain_gen_salt plain_hash_internal
           plain_check_password_hash None None plain_codec_error willing_relay
           route_login login_request (world_as (Some 2)) bob_session_resolves).
Defined.

Lemma contact_is_not_the_door :
  route_contact <> route_login /\ route_contact <> route_register
  /\ route_contact <> route_logout.
Proof.
  repeat split; discriminate.
Defined.

(** Bob writes to the owner. *)
Lemma session_changes_only_at_the_door_witness :
  session_user_id
    (snd (run (serve plain_well_formed 8 plain_gen_salt plain_hash_internal
                 plain_check_password_hash (Some "bot@example.com")
                 (Some "owner@example.com") plain_codec_error willing_relay
                 route_contact contact_request)
            (world_as (Some 2))))
  = Some 2.
Proof.
  exact (session_changes_only_at_the_door plain_well_formed 8 plain_gen_salt
           plain_hash_internal plain_check_password_hash (Some "bot@example.com")
           (Some "owner@example.com") plain_codec_error willing_relay route_contact
           contact_request
           (world_as (Some 2))
           (proj1 contact_is_not_the_door)
           (proj1 (proj2 contact_is_not_the_door))
           (proj2 (proj2 contact_is_not_the_door))).
Defined.

(** ** The handlers run

    The formats and the routes, evaluated on the small blog. *)

Example strftime_example : strftime_B_d_Y (mkDate 2025 3 9) = "March 09, 2025".
Proof. reflexivity. Qed.

(** Bob deletes his own comment and is sent back to post 1. *)
Example bob_deletes_his_comment :
  run (delete_comment 5 1) (world_as (Some 2))
  = (redirect (ep_show_post 1), quiet_world_as (Some 2)).
Proof. reflexivity. Qed.

(** Ada, though admin, is not the author of comment 5; nor is a visitor. *)
Example others_cannot_delete_bobs_comment :
  run (delete_comment 5 1) (world_as (Some 1)) = (abort 403, world_as (Some 1))
  /\ run (delete_comment 5 1) (world_as None) = (abort 403, world_as None).
Proof. split; reflexivity. Qed.

(** Ada deletes post 2, which has no comment. *)
Example ada_deletes_post2 :
  run (delete_post 2) (world_as (Some 1))
  = (redirect ep_get_all_posts,
     mkWorld (mkStore [ada; bob] [post1] [comment5]) (Some 1) [] 0 (mkDate 2025 3 11) []).
Proof. reflexivity. Qed.

(** Bob comments on post 1: the comment is stored, the page rendered. *)
Example bob_comments :
  run (show_post 1 comment_request) (world_as (Some 2))
  = (render_template "post.html",
     mkWorld (mkStore [ada; bob] [post1; post2]
                [comment5; mkComment 6 "Me too" 2 (Some 1)])
       (Some 2) [] 0 (mkDate 2025 3 11) []).
Proof. reflexivity. Qed.

(** Ada publishes a post on 11 March 2025. *)
Example ada_publishes :
  run (add_new_post edit_request) (world_as (Some 1))
  = (redirect ep_get_all_posts,
     mkWorld (mkStore [ada; bob]
                [post1; post2;
                 mkBlogPost 3 "Hello again" "Edited" "March 11, 2025" "<p>New</p>"
                   "https://example.com/3.png" 1]
                [comment5])
       (Some 1) [] 0 (mkDate 2025 3 11) []).
Proof. reflexivity. Qed.

(** A wrong password, and an unknown email. *)
Example login_failures :
  run (login plain_check_password_hash
         (mkRequest POST [("email", "bob@example.com"); ("password", "guess")]))
      (world_as None)
  = (redirect ep_login,
     with_flash "Invalid password. Please try again." "message" (world_as None))
  /\ run (login plain_check_password_hash
            (mkRequest POST [("email", "eve@example.com"); ("password", "guess")]))
         (world_as None)
     = (redirect ep_login,
        with_flash "That email does not exist. Please try again." "message"
          (world_as None)).
Proof. split; reflexivity. Qed.

(** The relay refuses the login; the visitor sees why. *)
Example contact_relay_refuses :
  run (contact (Some "bot@example.com") (Some "owner@example.com") plain_codec_error
         (mkRelay None None (Some "(535, b'5.7.8 Username and Password not accepted')")
            None None)
         (mkRequest POST [("name", "Di"); ("email", "di@example.com");
                          ("phone", "555"); ("message", "Hi")]))
      (world_as None)
  = (render_template "contact.html",
     with_flash
       "❌ Failed to send message: (535, b'5.7.8 Username and Password not accepted')"
       "error" (world_as None)).
Proof. reflexivity. Qed.

(** José writes to the owner through a willing relay: the message is
    not ASCII, nothing is sent, and he is told so. *)
Example contact_not_ascii :
  run (contact (Some "bot@example.com") (Some "owner@example.com") plain_codec_error
         willing_relay
         (mkRequest POST [("name", "José"); ("email", "jose@example.com");
                          ("phone", "555"); ("message", "Hi")]))
      (world_as None)
  = (render_template "contact.html",
     mkWorld blog None
       [("error",
         "❌ Failed to send message: 'ascii' codec can't encode characters: ordinal not in range(128)")]
       0 (mkDate 2025 3 11) []).
Proof. reflexivity. Qed.

(** The same form in ASCII goes through. *)
Example contact_sent :
  run (contact (Some "bot@example.com") (Some "owner@example.com") plain_codec_error
         willing_relay contact_request)
      (world_as None)
  = (render_template "contact.html",
     mkWorld blog None [("success", "Your message was sent successfully!")]
       0 (mkDate 2025 3 11)
       [mkMail (Some "bot@example.com") (Some "owner@example.com")
          ("Subject: Blog Contact Form - Di " ++ String "010" (String "010"
           ("Message: Hi " ++ String "010" (String "010"
            "Email: di@example.com Phone Number: 555"))))]).
Proof. reflexivity. Qed.

(** ** Where the code departs from the specification *)

(** C1.  Deleting a post does not remove its comments: Ada, the admin,
    deletes post 1, which has Bob's comment under it.  The relationship
    has no delete cascade, the commit is refused (comments.post_id is NOT
    NULL) and the IntegrityError is not caught; the post and the comment
    are both still there. *)
Theorem delete_post_with_a_comment :
  let w := world_as (Some 1) in
  let w' := snd (run (delete_post 1) w) in
  authenticated_as 1 w
  /\ get_post 1 (db w) = Some post1
  /\ comment_post_id comment5 = Some (post_id post1)
  /\ fst (run (delete_post 1) w)
     = unhandled (IntegrityError "NOT NULL constraint failed: comments.post_id")
  /\ get_post 1 (db w') = Some post1
  /\ In comment5 (comments (db w'))
  /\ ~ (get_post 1 (db w') = None
        /\ forall c, In c (comments (db w')) -> comment_post_id c <> Some 1).
Proof.
  cbv zeta. split; [exists ada; split; reflexivity|].
  repeat (split; [reflexivity|]).
  split; [now left|].
  intros [H _]. discriminate H.
Qed.

(** C8.  A valid edit does not always end on the post's page: Ada's
    edit of post 1 takes the title of post 2.  The commit is refused
    (blog_posts.title is unique) and the IntegrityError is not caught:
    there is no redirect, and nothing of the edit is kept. *)
Theorem edit_post_with_a_taken_title :
  let w := world_as (Some 1) in
  authenticated_as 1 w
  /\ get_post 1 (db w) = Some post1
  /\ validate_on_submit CreatePostForm_validate clashing_edit_request = true
  /\ run (edit_post 1 clashing_edit_request) w
     = (unhandled (IntegrityError "UNIQUE constraint failed: blog_posts.title"), w)
  /\ fst (run (edit_post 1 clashing_edit_request) w) <> redirect (ep_show_post 1).
Proof.
  cbv zeta. split; [exists ada; split; reflexivity|].
  repeat (split; [reflexivity|]).
  discriminate.
Qed.

(** C4.  A comment identifier with no row is not always 404: the URL
    converter takes any run of digits, and for the identifier 2^63 the
    lookup of the guard ends in the driver's OverflowError, which nothing
    catches, whoever asks.  For an identifier the database takes (9) the
    answer is 404 for every caller. *)
Theorem delete_comment_past_int64 :
  get_comment (2 ^ 63) blog = None
  /\ (forall session,
        run (delete_comment (2 ^ 63) 1) (world_as session)
        = (unhandled OverflowError, world_as session))
  /\ (forall session,
        run (delete_comment 9 1) (world_as session) = (abort 404, world_as session)).
Proof.
  split; [reflexivity|]. split; intros session; reflexivity.
Qed.

(** C10.  The admin does not always get 404 for a post that does not
    exist: for the identifier 2^63 edit-post and delete-post answer 403
    to Bob and to a visitor (the guard comes first) but end in the
    driver's OverflowError for Ada; for the missing identifier 9 Ada
    gets 404.  On delete-comment the lookup comes first: 2^63 ends in
    the OverflowError for everyone, 9 in 404. *)
Theorem lookup_past_int64 :
  get_post (2 ^ 63) blog = None
  /\ run (edit_post (2 ^ 63) edit_request) (world_as (Some 1))
     = (unhandled OverflowError, world_as (Some 1))
  /\ run (delete_post (2 ^ 63)) (world_as (Some 1))
     = (unhandled OverflowError, world_as (Some 1))
  /\ run (edit_post (2 ^ 63) edit_request) (world_as (Some 2))
     = (abort 403, world_as (Some 2))
  /\ run (delete_post (2 ^ 63)) (world_as None) = (abort 403, world_as None)
  /\ run (edit_post 9 edit_request) (world_as (Some 1)) = (abort 404, world_as (Some 1))
  /\ run (delete_post 9) (world_as (Some 1)) = (abort 404, world_as (Some 1))
  /\ run (delete_comment (2 ^ 63) 1) (world_as (Some 2))
     = (unhandled OverflowError, world_as (Some 2))
  /\ run (delete_comment 9 1) (world_as (Some 2)) = (abort 404, world_as (Some 2)).
Proof.
  repeat split.
Qed.
